(** * AlphaEarth-Risk: the damage-analysis service of [app.py]

    A shallow embedding of the Flask service in [src/app.py]: the three
    analysis functions, [get_satellite_imagery] and the [/analyze] endpoint,
    followed by the properties of the specification proved (or refuted) on
    that embedding.

    Modelling conventions.
    - A Python float is represented by its exact rational value ([Q]).
      Comparisons of a float with the integer literals of the source are
      exact in Python, so they are exact here.  Division and multiplication
      round their exact result to the nearest binary64 number, ties to even
      ([binary64]); [round(x, 2)] rounds the exact value of [x] to a whole
      number of hundredths, ties to even, and returns the binary64 number
      nearest to it.  NaN, the infinities and overflow are not represented.
    - A value kept on the server is reached through a client-side object
      ([ComputedObject]); the object exists whatever the value, and
      [getInfo] fetches the value, which may be null.
    - Exceptions, [print], the memoisation cache and the one dictionary the
      endpoint mutates are effects of a small state-and-exception monad [M].
    - Google Earth Engine is an external collaborator.  Its image algebra is
      an interface ([ee.EarthEngine]); every call of the interface is a
      successful call.  Image collections are lists of catalogue images and
      the collection operators used by the source (bounds, cloud and date
      filters, sort, first, size) are written out on lists. *)

From Stdlib Require Import QArith Qround Qminmax Qpower ZArith Lqa Lia DecimalString Bool.
From stdpp Require Import gmap strings list.

(** ** Python values and the runtime *)

(** The JSON scalars a request body can carry, as the Python objects
    [request.json] turns them into.  Arrays and nested objects are not
    modelled. *)
Inductive PyVal : Type :=
| PNone
| PBool (b : bool)
| PInt (z : Z)
| PFloat (q : Q)
| PStr (s : string).

(** The exception classes that can arise; every one is a subclass of
    [Exception] and carries the text that [str(e)] returns. *)
Inductive exn : Type :=
| Exception (msg : string)
| TypeError (msg : string)
| ValueError (msg : string)
| ZeroDivisionError (msg : string).

Definition exn_str (e : exn) : string :=
  match e with
  | Exception m | TypeError m | ValueError m | ZeroDivisionError m => m
  end.

(** Text conversions of floats: [repr] (used by f-strings) and the parser
    behind [float(str)].  Both belong to the interpreter, not to the
    program. *)
Class PyFloatText := {
  float_repr : Q → string;
  float_parse : string → option Q
}.

Definition Qltb (x y : Q) : bool := (Qnum x * QDen y <? Qnum y * QDen x)%Z.

Definition Qeqb0 (x : Q) : bool := (Qnum x =? 0)%Z.

(** Python truthiness, as used by [all([...])] and [if x:]. *)
Definition truthy (v : PyVal) : bool :=
  match v with
  | PNone => false
  | PBool b => b
  | PInt z => negb (z =? 0)%Z
  | PFloat q => negb (Qeqb0 q)
  | PStr s => negb (String.eqb s "")
  end.

Definition py_all (l : list PyVal) : bool := forallb truthy l.

Definition str_of_Z (z : Z) : string := NilZero.string_of_int (Z.to_int z).

(** [str(v)], the conversion an f-string applies to [{v}]. *)
Definition py_str `{PyFloatText} (v : PyVal) : string :=
  match v with
  | PNone => "None"
  | PBool true => "True"
  | PBool false => "False"
  | PInt z => str_of_Z z
  | PFloat q => float_repr q
  | PStr s => s
  end.

(** [v == 'literal']: a string equals only the same string. *)
Definition py_eq_str (v : PyVal) (lit : string) : bool :=
  match v with
  | PStr s => String.eqb s lit
  | _ => false
  end.

(** Rounding to the nearest integer, ties to even. *)
Definition round_half_even (x : Q) : Z :=
  let f := Qfloor x in
  match Qcompare (x - inject_Z f) (1 # 2) with
  | Lt => f
  | Gt => (f + 1)%Z
  | Eq => if Z.even f then f else (f + 1)%Z
  end.

(** The binary logarithm of a positive rational, rounded down. *)
Definition ilog2 (q : Q) : Z :=
  let k := (Z.log2 (Qnum q) - Z.log2 (Zpos (Qden q)))%Z in
  if Qle_bool (2 ^ k) q then k else (k - 1)%Z.

(** The exponent of the last place of the binary64 numbers around [q]: 53
    significant bits, and no exponent below that of the subnormal numbers. *)
Definition float_exponent (q : Q) : Z := Z.max (ilog2 q - 52) (-1074).

Definition round_to_grid (q : Q) : Q :=
  inject_Z (round_half_even (q / 2 ^ float_exponent q)) * 2 ^ float_exponent q.

(** The binary64 number nearest to [q], ties to even. *)
Definition binary64 (q : Q) : Q :=
  match Qnum q with
  | Z0 => 0
  | Zpos _ => round_to_grid q
  | Zneg _ => - round_to_grid (- q)
  end.

(** [x * y] on floats *)
Definition py_mul (x y : Q) : Q := binary64 (x * y).

(** [round(x, 2)] *)
Definition py_round2 (x : Q) : Q := binary64 (Qmake (round_half_even (x * 100)) 100).

(** ** The effect monad *)

(** A Python dictionary with string keys. *)
Abbreviation PyDict := (gmap string PyVal).

(** The state a request handler acts on: the heap of dictionaries that are
    bound to a variable and shared or updated in place (a reference is an
    index into [heap]), the entries of the process-wide cache that are live
    when the request arrives, and the text printed so far. *)
Record World : Type := mkWorld {
  heap : list PyDict;
  cache : gmap string PyDict;
  stdout : list string
}.

Inductive outcome (A : Type) : Type :=
| Return (a : A)
| Raised (e : exn).
Arguments Return {A} a.
Arguments Raised {A} e.

Definition M (A : Type) : Type := World → outcome A * World.

#[global] Instance M_ret : MRet M := λ A a w, (Return a, w).

#[global] Instance M_bind : MBind M := λ A B f m w,
  match m w with
  | (Return a, w') => f a w'
  | (Raised e, w') => (Raised e, w')
  end.

Definition raise {A} (e : exn) : M A := λ w, (Raised e, w).

(** [try: body except Exception as e: handler e] *)
Definition try_except {A} (body : M A) (handler : exn → M A) : M A := λ w,
  match body w with
  | (Return a, w') => (Return a, w')
  | (Raised e, w') => handler e w'
  end.

Definition print (line : string) : M unit := λ w,
  (Return tt, mkWorld (heap w) (cache w) (stdout w ++ [line])).

(** [{...}] bound to a variable: a fresh object, returned by reference. *)
Definition new_dict (d : PyDict) : M nat := λ w,
  (Return (length (heap w)), mkWorld (heap w ++ [d]) (cache w) (stdout w)).

(** [ref[k] = v]: an update of the referenced object, in place. *)
Definition dict_setitem (ref : nat) (k : string) (v : PyVal) : M unit := λ w,
  (Return tt, mkWorld (alter (insert k v) ref (heap w)) (cache w) (stdout w)).

Definition deref (ref : nat) : M PyDict := λ w,
  (Return (default ∅ (heap w !! ref)), w).

(** [cache.get(key)]: the stored value or [None]. *)
Definition cache_get (key : string) : M (option PyDict) := λ w,
  (Return (cache w !! key), w).

(** [cache.set(key, ref, timeout=3600)]: the cache serialises the object it
    is handed, so what it keeps is the object's contents at that moment.
    Expiry is a matter of wall-clock time and is left out. *)
Definition cache_set (key : string) (ref : nat) : M unit := λ w,
  (Return tt,
   mkWorld (heap w) (<[key := default ∅ (heap w !! ref)]> (cache w)) (stdout w)).

(** What a Flask view returns: a JSON body and a status code. *)
Record Response : Type := mkResponse {
  body : PyDict;
  status_code : Z
}.

(** [jsonify(ref)], status 200 *)
Definition jsonify (ref : nat) : M Response :=
  d ← deref ref; mret (mkResponse d 200).

(** [float(v)] *)
Definition py_float `{PyFloatText} (v : PyVal) : M Q :=
  match v with
  | PNone =>
      raise (TypeError "float() argument must be a string or a real number, not 'NoneType'")
  | PBool b => mret (if b then 1 else 0)%Q
  | PInt z => mret (inject_Z z)
  | PFloat q => mret q
  | PStr s =>
      match float_parse s with
      | Some q => mret q
      | None => raise (ValueError "could not convert string to float")
      end
  end.

Definition division_by_zero : exn := ZeroDivisionError "float division by zero".

(** [x / y] on floats *)
Definition py_div (x y : Q) : M Q :=
  if Qeqb0 y then raise division_by_zero
  else mret (binary64 (x / y)).

(** An [ee.ComputedObject]: the client-side object that stands for a value
    kept on the server.  [getInfo] is what [.getInfo()] fetches, [None] for
    null. *)
Record ComputedObject : Type := mkComputed {
  getInfo : option Q
}.

(** [dictionary.get(key)] on a server-side dictionary: an object, whatever
    the value under the key. *)
Definition Dictionary_get (value : option Q) : option ComputedObject :=
  Some (mkComputed value).

(** [ee.Number(obj)] wraps the object it is given. *)
Definition Number (obj : ComputedObject) : ComputedObject := obj.

Definition none_operand : exn :=
  TypeError "unsupported operand type(s) for /: 'NoneType' and 'float'".

(** [x / y] where [x] was fetched with [getInfo] and may be [None]. *)
Definition py_div_fetched (x : option Q) (y : Q) : M Q :=
  match x with
  | None => raise none_operand
  | Some m => py_div m y
  end.

(** [d.get(k)] on the request body *)
Definition dict_get (d : PyDict) (k : string) : PyVal := default PNone (d !! k).

(** ** The Earth Engine interface *)

(** Visualisation parameters handed to [getThumbUrl]. *)
Record VisParams : Type := mkVis {
  vis_min : Q;
  vis_max : Q;
  vis_palette : list string;
  vis_bands : list string
}.

Module ee.

(** The operations of the [ee] client library that the source calls.
    [reduceRegion_sum img geometry scale maxPixels band] is the value on the
    server of [img.reduceRegion(reducer=ee.Reducer.sum(), geometry=..,
    scale=.., maxPixels=..)] under the key [band]: a number, or nothing when
    the reduction is null.  The numbers of the interface are the binary64
    numbers that Python receives. *)
Class EarthEngine : Type := {
  Image : Type;
  Geometry : Type;
  (* metadata of a catalogue image *)
  time_start : Image → Z;
  cloudy_pixel_percentage : Image → Q;
  intersects : Image → Geometry → bool;
  ImageCollection : string → list Image;
  null_image : Image;
  (* dates, as instants *)
  Date : PyVal → Z;
  advance : Z → Z → string → Z;
  (* geometry *)
  Point : Q → Q → Geometry;
  buffer : Geometry → Q → Geometry;
  area : Geometry → Q;
  (* image algebra *)
  clip : Image → Geometry → Image;
  normalizedDifference : Image → list string → Image;
  rename : Image → string → Image;
  subtract : Image → Image → Image;
  gt : Image → Q → Image;
  lt : Image → Q → Image;
  And : Image → Image → Image;
  selfMask : Image → Image;
  multiply : Image → Image → Image;
  pixelArea : Image;
  reduceRegion_sum : Image → Geometry → Q → Q → string → option Q;
  getThumbUrl : Image → VisParams → string
}.

End ee.

Section Service.

Context `{EE : ee.EarthEngine} `{PT : PyFloatText}.

Local Open Scope Q_scope.

(** *** Collections *)

Definition filterBounds (aoi : ee.Geometry) (c : list ee.Image) : list ee.Image :=
  List.filter (λ img, ee.intersects img aoi) c.

(** [.filter(ee.Filter.lt('CLOUDY_PIXEL_PERCENTAGE', bound))] *)
Definition filter_cloud_lt (bound : Q) (c : list ee.Image) : list ee.Image :=
  List.filter (λ img, Qltb (ee.cloudy_pixel_percentage img) bound) c.

(** [.filterDate(start, stop)]: start inclusive, stop exclusive. *)
Definition filterDate (start stop : Z) (c : list ee.Image) : list ee.Image :=
  List.filter (λ img, (start <=? ee.time_start img)%Z && (ee.time_start img <? stop)%Z) c.

Fixpoint insert_by_time (ascending : bool) (x : ee.Image) (l : list ee.Image)
  : list ee.Image :=
  match l with
  | [] => [x]
  | y :: l' =>
      if (if ascending then ee.time_start x <=? ee.time_start y
          else ee.time_start y <=? ee.time_start x)%Z
      then x :: l
      else y :: insert_by_time ascending x l'
  end.

(** [.sort('system:time_start', ascending)] *)
Definition sort_time_start (ascending : bool) (c : list ee.Image) : list ee.Image :=
  foldr (insert_by_time ascending) [] c.

(** [.first()] *)
Definition first (c : list ee.Image) : ee.Image := hd ee.null_image c.

(** [.size().getInfo()] *)
Definition size_getInfo (c : list ee.Image) : nat := length c.

(** *** The analysis functions *)

Definition calculate_ndvi (image : ee.Image) : ee.Image :=
  ee.rename (ee.normalizedDifference image ["B8"; "B4"]) "NDVI".

(** The change raster of the fire and landslide analyses. *)
Definition dNDVI (image_before image_after : ee.Image) : ee.Image :=
  let ndvi_before := calculate_ndvi image_before in
  let ndvi_after := calculate_ndvi image_after in
  ee.rename (ee.subtract ndvi_before ndvi_after) "dNDVI".

Definition burned_area (image_before image_after : ee.Image) : ee.Image :=
  let dndvi := dNDVI image_before image_after in
  let burn_threshold := 6 # 10 in
  ee.selfMask (ee.rename (ee.gt dndvi burn_threshold) "burned_area").

(** The value on the server of the sum reduction of the burn mask. *)
Definition burned_meters (image_before image_after : ee.Image) (aoi : ee.Geometry)
  : option Q :=
  let pixel_area := ee.pixelArea in
  ee.reduceRegion_sum (ee.multiply (burned_area image_before image_after) pixel_area)
    aoi 30 (10 ^ 9) "burned_area".

(** In the three analysis functions the variable that the source tests with
    [is None] holds the object returned by [.get(band)]; the number is fetched
    afterwards, by [ee.Number(..).getInfo()], as the left operand of the
    division. *)
Definition analyze_fire_damage (image_before image_after : ee.Image)
    (aoi : ee.Geometry) : M (Q * ee.Image) :=
  let dndvi := dNDVI image_before image_after in
  let burned_meters_obj := Dictionary_get (burned_meters image_before image_after aoi) in
  let total_meters := ee.area aoi in
  match burned_meters_obj with
  | None => mret (0, dndvi)
  | Some obj =>
      ratio ← py_div_fetched (getInfo (Number obj)) total_meters;
      let damage_percent := py_mul ratio 100 in
      mret (py_round2 damage_percent, dndvi)
  end.

Definition NDWI_After (image_after : ee.Image) : ee.Image :=
  ee.rename (ee.normalizedDifference image_after ["B3"; "B8"]) "NDWI_After".

Definition flooded_area (image_before image_after : ee.Image) : ee.Image :=
  let ndwi_before :=
    ee.rename (ee.normalizedDifference image_before ["B3"; "B8"]) "NDWI_Before" in
  let ndwi_after := NDWI_After image_after in
  let water_threshold := 3 # 10 in
  let not_water_before := ee.lt ndwi_before water_threshold in
  let is_water_after := ee.gt ndwi_after water_threshold in
  ee.selfMask (ee.rename (ee.And not_water_before is_water_after) "flooded_area").

Definition flooded_meters (image_before image_after : ee.Image) (aoi : ee.Geometry)
  : option Q :=
  let pixel_area := ee.pixelArea in
  ee.reduceRegion_sum (ee.multiply (flooded_area image_before image_after) pixel_area)
    aoi 30 (10 ^ 9) "flooded_area".

Definition analyze_flood_damage (image_before image_after : ee.Image)
    (aoi : ee.Geometry) : M (Q * ee.Image) :=
  let ndwi_after := NDWI_After image_after in
  let flooded_meters_obj := Dictionary_get (flooded_meters image_before image_after aoi) in
  let total_meters := ee.area aoi in
  match flooded_meters_obj with
  | None => mret (0, ndwi_after)
  | Some obj =>
      ratio ← py_div_fetched (getInfo (Number obj)) total_meters;
      let damage_percent := py_mul ratio 100 in
      mret (py_round2 damage_percent, ndwi_after)
  end.

Definition slide_area (image_before image_after : ee.Image) : ee.Image :=
  let dndvi := dNDVI image_before image_after in
  let slide_threshold := 4 # 10 in
  ee.selfMask (ee.rename (ee.gt dndvi slide_threshold) "slide_area").

Definition slide_meters (image_before image_after : ee.Image) (aoi : ee.Geometry)
  : option Q :=
  let pixel_area := ee.pixelArea in
  ee.reduceRegion_sum (ee.multiply (slide_area image_before image_after) pixel_area)
    aoi 30 (10 ^ 9) "slide_area".

Definition analyze_landslide_damage (image_before image_after : ee.Image)
    (aoi : ee.Geometry) : M (Q * ee.Image) :=
  let dndvi := dNDVI image_before image_after in
  let slide_meters_obj := Dictionary_get (slide_meters image_before image_after aoi) in
  let total_meters := ee.area aoi in
  match slide_meters_obj with
  | None => mret (0, dndvi)
  | Some obj =>
      ratio ← py_div_fetched (getInfo (Number obj)) total_meters;
      let damage_percent := py_mul ratio 100 in
      mret (py_round2 damage_percent, dndvi)
  end.

(** *** Selection of the imagery and dispatch on the disaster type *)

Definition area_of_interest (lat lon : Q) : ee.Geometry :=
  let poi := ee.Point lon lat in
  ee.buffer poi 1000.

(** The cloud-filtered candidates (lines 104-106). *)
Definition eligible (aoi : ee.Geometry) : list ee.Image :=
  filter_cloud_lt 15 (filterBounds aoi (ee.ImageCollection "COPERNICUS/S2_SR_HARMONIZED")).

Definition collection_before (aoi : ee.Geometry) (disaster_date_str : PyVal) : list ee.Image :=
  let date_disaster_start := ee.Date disaster_date_str in
  let date_before_start := ee.advance date_disaster_start (-3) "month" in
  filterDate date_before_start date_disaster_start (eligible aoi).

Definition collection_after (aoi : ee.Geometry) (disaster_date_str : PyVal) : list ee.Image :=
  let date_disaster_start := ee.Date disaster_date_str in
  let date_after_end := ee.advance date_disaster_start 3 "month" in
  filterDate date_disaster_start date_after_end (eligible aoi).

Definition no_imagery_message : string :=
  "No cloud-free images (<15%) were found within 3 months before or after the specified date and location. Please try a different date range or area.".

Definition unsupported_message (disaster_type : PyVal) : string :=
  "Disaster type '" +:+ py_str disaster_type
  +:+ "' is not supported. Use 'fire', 'flood', 'hurricane', or 'earthquake'.".

Definition flood_palette : VisParams :=
  mkVis (- (1 # 2)) 1 ["orange"; "white"; "blue"] [].

(** The branch on [disaster_type] (lines 121-147): the damage percentage,
    the raster to render and its visualisation parameters. *)
Definition analysis_by_type (disaster_type : PyVal)
    (image_before image_after : ee.Image) (aoi : ee.Geometry)
  : M (Q * ee.Image * VisParams) :=
  if py_eq_str disaster_type "fire" then
    print "Processing 'fire' event.";;
    '(damage_percent, analysis_image) ← analyze_fire_damage image_before image_after aoi;
    mret (damage_percent, analysis_image,
          mkVis (- (1 # 2)) 1 ["blue"; "white"; "green"; "yellow"; "red"] [])
  else if py_eq_str disaster_type "flood" then
    print "Processing 'flood' event.";;
    '(damage_percent, analysis_image) ← analyze_flood_damage image_before image_after aoi;
    mret (damage_percent, analysis_image, flood_palette)
  else if py_eq_str disaster_type "hurricane" then
    print "Processing 'hurricane' event as a flood analysis.";;
    '(damage_percent, analysis_image) ← analyze_flood_damage image_before image_after aoi;
    mret (damage_percent, analysis_image, flood_palette)
  else if py_eq_str disaster_type "earthquake" then
    print "Processing 'earthquake' event as a landslide (dNDVI) analysis.";;
    '(damage_percent, analysis_image) ← analyze_landslide_damage image_before image_after aoi;
    mret (damage_percent, analysis_image,
          mkVis (- (2 # 10)) (8 # 10) ["blue"; "white"; "green"; "brown"; "red"] [])
  else
    raise (Exception (unsupported_message disaster_type)).

(** The value on the server of the sum reduction that the branch for
    [disaster_type] asks for. *)
Definition masked_meters (disaster_type : PyVal)
    (image_before image_after : ee.Image) (aoi : ee.Geometry) : option Q :=
  if py_eq_str disaster_type "fire" then burned_meters image_before image_after aoi
  else if py_eq_str disaster_type "flood" then flooded_meters image_before image_after aoi
  else if py_eq_str disaster_type "hurricane" then flooded_meters image_before image_after aoi
  else if py_eq_str disaster_type "earthquake" then slide_meters image_before image_after aoi
  else None.

(** [round((m / total_meters) * 100, 2)], the percentage an analysis
    function returns for a fetched reduction [m] and a non-zero area. *)
Definition area_percent (m total_meters : Q) : Q :=
  py_round2 (py_mul (binary64 (m / total_meters)) 100).

Definition image_before_obj (aoi : ee.Geometry) (disaster_date_str : PyVal) : ee.Image :=
  first (sort_time_start false (collection_before aoi disaster_date_str)).

Definition image_after_obj (aoi : ee.Geometry) (disaster_date_str : PyVal) : ee.Image :=
  first (sort_time_start true (collection_after aoi disaster_date_str)).

Definition get_satellite_imagery (lat lon : Q) (disaster_date_str disaster_type : PyVal)
  : M (string * string * string * Q) :=
  let aoi := area_of_interest lat lon in
  if (size_getInfo (collection_before aoi disaster_date_str) =? 0)%nat
     || (size_getInfo (collection_after aoi disaster_date_str) =? 0)%nat
  then raise (Exception no_imagery_message)
  else
    let image_before := ee.clip (image_before_obj aoi disaster_date_str) aoi in
    let image_after := ee.clip (image_after_obj aoi disaster_date_str) aoi in
    '(damage_percent, analysis_image, vis_params_analysis) ←
      analysis_by_type disaster_type image_before image_after aoi;
    let vis_params_rgb := mkVis 0 3000 [] ["B4"; "B3"; "B2"] in
    let url_before := ee.getThumbUrl image_before vis_params_rgb in
    let url_after := ee.getThumbUrl image_after vis_params_rgb in
    let url_damage_map := ee.getThumbUrl analysis_image vis_params_analysis in
    mret (url_before, url_after, url_damage_map, damage_percent).

(** *** The endpoint *)

(** Lines 184-190. *)
Definition severity_status (damage_percent : Q) : string :=
  let status := "Light Damage Detected" in
  if Qltb 70 damage_percent then "AUTOMATICALLY APPROVED (Severe Damage)"
  else if Qltb 30 damage_percent then "FLAGGED FOR REVIEW (Considerable Damage)"
  else if Qltb damage_percent 5 then "No Significant Damage Detected"
  else status.

(** Lines 182-201: run the pipeline, classify, and build [response_data]. *)
Definition build_response_data (lat lon : Q) (disaster_date disaster_type : PyVal)
  : M nat :=
  '(url_before, url_after, url_damage_map, damage_percent) ←
    get_satellite_imagery lat lon disaster_date disaster_type;
  let status := severity_status damage_percent in
  new_dict
    (<["status" := PStr status]>
     (<["damage_percent" := PFloat damage_percent]>
     (<["image_url_before" := PStr url_before]>
     (<["image_url_after" := PStr url_after]>
     (<["image_url_damage_map" := PStr url_damage_map]>
     (<["location_processed" :=
          PStr ("Lat: " +:+ float_repr lat +:+ ", Lon: " +:+ float_repr lon)]>
     (<["date_processed" := disaster_date]>
     (<["type_processed" := disaster_type]> ∅)))))))).

(** Lines 206-224: the risk annotation, written into [response_data]. *)
Definition add_risk_context (response_data : nat) (lat lon : Q) (disaster_type : PyVal)
  : M unit :=
  if py_eq_str disaster_type "flood" || py_eq_str disaster_type "hurricane" then
    if (Qltb 29 lat && Qltb lat 31) && (Qltb (-91) lon && Qltb lon (-89)) then
      dict_setitem response_data "risk_context"
        (PStr "ALERT! This property is in a High-Risk Flood/Storm Surge Zone designated by FEMA (e.g., Zone AE).")
    else
      dict_setitem response_data "risk_context"
        (PStr "Property is outside of known high-risk flood zones.")
  else if py_eq_str disaster_type "earthquake" then
    if (Qltb 33 lat && Qltb lat 35) && (Qltb (-119) lon && Qltb lon (-117)) then
      dict_setitem response_data "risk_context"
        (PStr "ALERT! This property is in a High-Risk Seismic Zone (e.g., near San Andreas Fault).")
    else
      dict_setitem response_data "risk_context"
        (PStr "Property is outside of known high-risk seismic zones.")
  else if py_eq_str disaster_type "fire" then
    dict_setitem response_data "risk_context"
      (PStr "Wildfire risk context for this area is under analysis.")
  else
    dict_setitem response_data "risk_context"
      (PStr "Risk context analysis not applicable for this type of disaster.").

Definition missing_params_response : Response :=
  mkResponse
    {["error" := PStr "Faltan 'lat', 'lon', 'disaster_date' o 'disaster_type'"]} 400.

Definition analysis_error_response (e : exn) : Response :=
  mkResponse {["error" := PStr ("Error in the analysis: " +:+ exn_str e)]} 500.

Definition cache_key_of (lat lon : Q) (disaster_date disaster_type : PyVal) : string :=
  "analysis_" +:+ float_repr lat +:+ "_" +:+ float_repr lon +:+ "_"
  +:+ py_str disaster_date +:+ "_" +:+ py_str disaster_type.

(** [if cached_response:] holds for a stored, non-empty dictionary. *)
Definition cache_hit (cached_response : option PyDict) : option PyDict :=
  match cached_response with
  | Some d => if (size d =? 0)%nat then None else Some d
  | None => None
  end.

(** Lines 181-233, the part of the view under [try]. *)
Definition compute_response (cache_key : string) (lat lon : Q)
    (disaster_date disaster_type : PyVal) : M Response :=
  try_except
    (response_data ← build_response_data lat lon disaster_date disaster_type;
     add_risk_context response_data lat lon disaster_type;;
     cache_set cache_key response_data;;
     jsonify response_data)
    (λ e,
       print ("Error in the GEE analysis: " +:+ exn_str e);;
       mret (analysis_error_response e)).

Definition analyze_damage_endpoint (data : PyDict) : M Response :=
  lat ← py_float (dict_get data "lat");
  lon ← py_float (dict_get data "lon");
  let disaster_date := dict_get data "disaster_date" in
  let disaster_type := dict_get data "disaster_type" in
  if negb (py_all [PFloat lat; PFloat lon; disaster_date; disaster_type]) then
    mret missing_params_response
  else
    let cache_key := cache_key_of lat lon disaster_date disaster_type in
    cached_response ← cache_get cache_key;
    match cache_hit cached_response with
    | Some d =>
        print "Response returned from CACHE!";;
        mret (mkResponse d 200)
    | None =>
        print "CALCULATED response (not from cache)!";;
        compute_response cache_key lat lon disaster_date disaster_type
    end.

(** *** Derived views of the endpoint

    The three definitions below name values that the view computes on the
    way: the dictionary literal of lines 192-201, the text that lines 206-224
    store under [risk_context], and the value of [damage_percent * 100]
    before rounding. *)

Definition report_fields (lat lon : Q) (disaster_date disaster_type : PyVal)
    (url_before url_after url_damage_map : string) (damage_percent : Q) : PyDict :=
  <["status" := PStr (severity_status damage_percent)]>
  (<["damage_percent" := PFloat damage_percent]>
  (<["image_url_before" := PStr url_before]>
  (<["image_url_after" := PStr url_after]>
  (<["image_url_damage_map" := PStr url_damage_map]>
  (<["location_processed" :=
       PStr ("Lat: " +:+ float_repr lat +:+ ", Lon: " +:+ float_repr lon)]>
  (<["date_processed" := disaster_date]>
  (<["type_processed" := disaster_type]> ∅))))))).

Definition flood_alert : string :=
  "ALERT! This property is in a High-Risk Flood/Storm Surge Zone designated by FEMA (e.g., Zone AE).".

Definition seismic_alert : string :=
  "ALERT! This property is in a High-Risk Seismic Zone (e.g., near San Andreas Fault).".

Definition risk_context_text (lat lon : Q) (disaster_type : PyVal) : string :=
  if py_eq_str disaster_type "flood" || py_eq_str disaster_type "hurricane" then
    if (Qltb 29 lat && Qltb lat 31) && (Qltb (-91) lon && Qltb lon (-89))
    then flood_alert
    else "Property is outside of known high-risk flood zones."
  else if py_eq_str disaster_type "earthquake" then
    if (Qltb 33 lat && Qltb lat 35) && (Qltb (-119) lon && Qltb lon (-117))
    then seismic_alert
    else "Property is outside of known high-risk seismic zones."
  else if py_eq_str disaster_type "fire" then
    "Wildfire risk context for this area is under analysis."
  else "Risk context analysis not applicable for this type of disaster.".

End Service.

(** ** A small provider: uniform scenes

    An instance of the interface on which the service can be run.  An image
    is a uniform scene: one value per band (or none where the band is masked)
    over the part of the region the image covers; operators act on the first
    band.  A region is a disc; the sum reduction rasterises it into whole
    pixels of [scale * scale] square units, adds up the pixels the image
    covers, and is null when the band is masked. *)
Module Scenes.

Local Open Scope Q_scope.

Record Scene : Type := mkScene {
  sc_time : Z;
  sc_cloud : Q;
  sc_cover : Q;
  sc_bands : list (string * option Q)
}.

Definition band (s : Scene) (name : string) : option Q :=
  match List.find (λ b, String.eqb (fst b) name) (sc_bands s) with
  | Some (_, v) => v
  | None => None
  end.

Definition first_band (s : Scene) : string * option Q :=
  hd (EmptyString, None) (sc_bands s).

Definition with_band (s : Scene) (name : string) (v : option Q) : Scene :=
  mkScene (sc_time s) (sc_cloud s) (sc_cover s) [(name, v)].

Definition lift2 (f : Q → Q → option Q) (a b : option Q) : option Q :=
  match a, b with
  | Some x, Some y => f x y
  | _, _ => None
  end.

Definition truth (b : bool) : option Q := Some (if b then 1 else 0).

Definition normalizedDifference (s : Scene) (names : list string) : Scene :=
  match names with
  | [a; b] =>
      with_band s "nd"
        (lift2 (λ x y, if Qeqb0 (x + y) then None else Some ((x - y) / (x + y)))
               (band s a) (band s b))
  | _ => with_band s "nd" None
  end.

Definition rename (s : Scene) (name : string) : Scene :=
  with_band s name (snd (first_band s)).

Definition pointwise (f : Q → Q → option Q) (s t : Scene) : Scene :=
  mkScene (sc_time s) (sc_cloud s) (Qmin (sc_cover s) (sc_cover t))
    [(fst (first_band s), lift2 f (snd (first_band s)) (snd (first_band t)))].

Definition compare_with (f : Q → bool) (s : Scene) : Scene :=
  with_band s (fst (first_band s))
    (match snd (first_band s) with Some x => truth (f x) | None => None end).

Definition selfMask (s : Scene) : Scene :=
  with_band s (fst (first_band s))
    (match snd (first_band s) with
     | Some x => if Qeqb0 x then None else Some x
     | None => None
     end).

Record Disc : Type := mkDisc { radius : Q }.

Definition disc_area (g : Disc) : Q := (201 # 64) * radius g * radius g.

Definition pixels (g : Disc) (scale : Q) : Z := Qceiling (disc_area g / (scale * scale)).

Definition reduceRegion_sum (s : Scene) (g : Disc) (scale maxPixels : Q) (name : string)
  : option Q :=
  match band s name with
  | Some v => Some (v * inject_Z (Qfloor (sc_cover s * inject_Z (pixels g scale))))
  | None => None
  end.

Definition date_of (v : PyVal) : Z :=
  match v with
  | PInt z => z
  | PFloat q => Qfloor q
  | _ => 0%Z
  end.

Definition month_ms : Z := 2592000000.

#[local] Instance provider (catalogue : list Scene) : ee.EarthEngine := {|
  ee.Image := Scene;
  ee.Geometry := Disc;
  ee.time_start := sc_time;
  ee.cloudy_pixel_percentage := sc_cloud;
  ee.intersects := λ _ _, true;
  ee.ImageCollection := λ _, catalogue;
  ee.null_image := mkScene 0 0 0 [];
  ee.Date := date_of;
  ee.advance := λ d n _, (d + n * month_ms)%Z;
  ee.Point := λ _ _, mkDisc 0;
  ee.buffer := λ g r, mkDisc (radius g + r);
  ee.area := disc_area;
  ee.clip := λ s _, s;
  ee.normalizedDifference := normalizedDifference;
  ee.rename := rename;
  ee.subtract := pointwise (λ x y, Some (x - y));
  ee.gt := λ s q, compare_with (λ x, Qltb q x) s;
  ee.lt := λ s q, compare_with (λ x, Qltb x q) s;
  ee.And := pointwise (λ x y, truth (negb (Qeqb0 x) && negb (Qeqb0 y)));
  ee.selfMask := selfMask;
  ee.multiply := pointwise (λ x y, Some (x * y));
  ee.pixelArea := mkScene 0 0 1 [("area"%string, Some 900)];
  ee.reduceRegion_sum := reduceRegion_sum;
  ee.getThumbUrl := λ s _, ("thumb:" +:+ fst (first_band s))%string
|}.

(** Floats printed as a fraction. *)
#[local] Instance text : PyFloatText := {|
  float_repr := λ q, str_of_Z (Qnum q) +:+ "/" +:+ str_of_Z (Zpos (Qden q));
  float_parse := λ _, None
|}.

(** Reflectances of dry vegetated land and of open water, seen over a
    fraction [cover] of the region. *)
Definition land (t : Z) (cloud cover : Q) : Scene :=
  mkScene t cloud cover
    [("B3"%string, Some 800); ("B4"%string, Some 600); ("B8"%string, Some 3000)].

Definition water (t : Z) (cloud cover : Q) : Scene :=
  mkScene t cloud cover
    [("B3"%string, Some 900); ("B4"%string, Some 500); ("B8"%string, Some 300)].

Definition event : Z := 1700000000000.

Definition day_ms : Z := 86400000.

(** Land ten days before the event, water five days after it. *)
Definition flooded_catalogue : list Scene :=
  [land (event - 10 * day_ms) 3 1; water (event + 5 * day_ms) 4 1].

(** The same, with the later image covering half of the region. *)
Definition half_flooded_catalogue : list Scene :=
  [land (event - 10 * day_ms) 3 1; water (event + 5 * day_ms) 4 (1 # 2)].

(** Land before and after: nothing changed. *)
Definition quiet_catalogue : list Scene :=
  [land (event - 10 * day_ms) 3 1; land (event + 5 * day_ms) 4 1].

(** Two eligible images on each side of the event; on each side the one
    closer to the event is the hazier. *)
Definition hazy_catalogue : list Scene :=
  [land (event - 40 * day_ms) 1 1; land (event - 10 * day_ms) 12 1;
   water (event + 5 * day_ms) 9 1; water (event + 20 * day_ms) 2 1].

Definition request (lat lon : Q) (type : string) : PyDict :=
  <["lat" := PFloat lat]>
  (<["lon" := PFloat lon]>
  (<["disaster_date" := PInt event]>
  (<["disaster_type" := PStr type]> ∅))).

Definition fresh : World := mkWorld [] ∅ [].

(** The region and the event date of the requests above. *)
Definition aoi : Disc := mkDisc 1000.

Definition date : PyVal := PInt event.

(** A flood request near New Orleans, stopped after [response_data] is
    built, and then continued through the risk annotation. *)
Definition report_built : outcome nat * World :=
  @build_response_data (provider flooded_catalogue) text 30 (-90) date (PStr "flood") fresh.

Definition report_annotated : outcome unit * World :=
  add_risk_context 0 30 (-90) (PStr "flood") (snd report_built).

(** The same provider with every region of area zero. *)
Definition flattened (catalogue : list Scene) : ee.EarthEngine := {|
  ee.Image := Scene;
  ee.Geometry := Disc;
  ee.time_start := sc_time;
  ee.cloudy_pixel_percentage := sc_cloud;
  ee.intersects := λ _ _, true;
  ee.ImageCollection := λ _, catalogue;
  ee.null_image := mkScene 0 0 0 [];
  ee.Date := date_of;
  ee.advance := λ d n _, (d + n * month_ms)%Z;
  ee.Point := λ _ _, mkDisc 0;
  ee.buffer := λ g r, mkDisc (radius g + r);
  ee.area := λ _, 0;
  ee.clip := λ s _, s;
  ee.normalizedDifference := normalizedDifference;
  ee.rename := rename;
  ee.subtract := pointwise (λ x y, Some (x - y));
  ee.gt := λ s q, compare_with (λ x, Qltb q x) s;
  ee.lt := λ s q, compare_with (λ x, Qltb x q) s;
  ee.And := pointwise (λ x y, truth (negb (Qeqb0 x) && negb (Qeqb0 y)));
  ee.selfMask := selfMask;
  ee.multiply := pointwise (λ x y, Some (x * y));
  ee.pixelArea := mkScene 0 0 1 [("area"%string, Some 900)];
  ee.reduceRegion_sum := reduceRegion_sum;
  ee.getThumbUrl := λ s _, ("thumb:" +:+ fst (first_band s))%string
|}.

(** A first flood request on a fresh server, over the half-flooded scenes. *)
Definition first_answer : outcome Response * World :=
  @analyze_damage_endpoint (provider half_flooded_catalogue) text
    (request 30 (-90) "flood") fresh.

Definition answer_of (o : outcome Response) : Response :=
  match o with
  | Return r => r
  | Raised _ => mkResponse ∅ 0
  end.

(** A request whose date is the event instant written as text. *)
Definition text_date_request (lat lon : Q) (type : string) : PyDict :=
  <["disaster_date" := PStr (str_of_Z event)]> (request lat lon type).

End Scenes.

(** * Properties *)

(** ** Arithmetic of the runtime *)

Lemma Qltb_lt (x y : Q) : Qltb x y = true ↔ (x < y)%Q.
Proof. unfold Qltb, Qlt. apply Z.ltb_lt. Qed.

Lemma Qltb_ge (x y : Q) : Qltb x y = false ↔ (y <= x)%Q.
Proof. unfold Qltb, Qle. rewrite Z.ltb_ge. reflexivity. Qed.

Lemma Qeqb0_eq (x : Q) : Qeqb0 x = true ↔ (x == 0)%Q.
Proof.
  unfold Qeqb0, Qeq. simpl. rewrite Z.eqb_eq, Z.mul_1_r. reflexivity.
Qed.

Lemma Qeqb0_neq (x : Q) : Qeqb0 x = false ↔ ¬ (x == 0)%Q.
Proof.
  rewrite <- Qeqb0_eq. destruct (Qeqb0 x); split; congruence.
Qed.

(** ** Severity classification *)

Lemma severity_status_severe (d : Q) :
  (70 < d)%Q → severity_status d = "AUTOMATICALLY APPROVED (Severe Damage)".
Proof.
  intros Hd. unfold severity_status.
  apply Qltb_lt in Hd. rewrite Hd. reflexivity.
Qed.

Lemma severity_status_flagged (d : Q) :
  (30 < d)%Q → (d <= 70)%Q →
  severity_status d = "FLAGGED FOR REVIEW (Considerable Damage)".
Proof.
  intros Hlo Hhi. unfold severity_status.
  apply Qltb_lt in Hlo. apply Qltb_ge in Hhi. rewrite Hhi, Hlo. reflexivity.
Qed.

Lemma severity_status_none (d : Q) :
  (d < 5)%Q → severity_status d = "No Significant Damage Detected".
Proof.
  intros Hd. unfold severity_status.
  assert (H70 : Qltb 70 d = false) by (apply Qltb_ge; lra).
  assert (H30 : Qltb 30 d = false) by (apply Qltb_ge; lra).
  apply Qltb_lt in Hd. rewrite H70, H30, Hd. reflexivity.
Qed.

Lemma severity_status_light (d : Q) :
  (5 <= d)%Q → (d <= 30)%Q → severity_status d = "Light Damage Detected".
Proof.
  intros Hlo Hhi. unfold severity_status.
  assert (H70 : Qltb 70 d = false) by (apply Qltb_ge; lra).
  apply Qltb_ge in Hlo. apply Qltb_ge in Hhi. rewrite H70, Hhi, Hlo. reflexivity.
Qed.

(** The report built by the view carries the percentage returned by the
    pipeline and the label computed from it. *)
Lemma build_response_data_status `{EE : ee.EarthEngine} `{PT : PyFloatText}
    (lat lon : Q) (date type : PyVal) (w : World) (r : nat) (w1 : World) :
  build_response_data lat lon date type w = (Return r, w1) →
  ∃ (report : PyDict) (damage_percent : Q),
    heap w1 !! r = Some report
    ∧ report !! "damage_percent" = Some (PFloat damage_percent)
    ∧ report !! "status" = Some (PStr (severity_status damage_percent)).
Proof.
  unfold build_response_data, mbind, M_bind, new_dict.
  destruct (get_satellite_imagery lat lon date type w)
    as [[[[[u1 u2] u3] dp] | e] w0]; [| done].
  intros [= <- <-]. eexists _, dp. simpl.
  split; [by apply list_lookup_middle |]. by simplify_map_eq.
Qed.

(** C1.  The severity label is a function of [damage_percent] alone, tested
    in the order severe, considerable, no-significant, with light damage as
    the default.  Above 70 the label is the approved one, in (30, 70] the
    flagged one, below 5 the no-significant one and in [5, 30] the light one;
    80, 50, 3 and 15 fall in these four classes, 70.0 is flagged and 5.0 is
    light.  Two representations of the same number get the same label, and
    the status of a report is this label of the report's percentage. *)
Theorem severity_status_classification `{EE : ee.EarthEngine} `{PT : PyFloatText}
    (d : Q) :
  ((70 < d)%Q → severity_status d = "AUTOMATICALLY APPROVED (Severe Damage)")
  ∧ ((30 < d)%Q ∧ (d <= 70)%Q →
     severity_status d = "FLAGGED FOR REVIEW (Considerable Damage)")
  ∧ ((d < 5)%Q → severity_status d = "No Significant Damage Detected")
  ∧ ((5 <= d)%Q ∧ (d <= 30)%Q → severity_status d = "Light Damage Detected")
  ∧ (∀ d' : Q, (d == d')%Q → severity_status d = severity_status d')
  ∧ severity_status 80 = "AUTOMATICALLY APPROVED (Severe Damage)"
  ∧ severity_status 50 = "FLAGGED FOR REVIEW (Considerable Damage)"
  ∧ severity_status 3 = "No Significant Damage Detected"
  ∧ severity_status 15 = "Light Damage Detected"
  ∧ severity_status 70 = "FLAGGED FOR REVIEW (Considerable Damage)"
  ∧ severity_status 5 = "Light Damage Detected"
  ∧ (∀ lat lon date type w r w1,
       build_response_data lat lon date type w = (Return r, w1) →
       ∃ (report : PyDict) (damage_percent : Q),
         heap w1 !! r = Some report
         ∧ report !! "damage_percent" = Some (PFloat damage_percent)
         ∧ report !! "status" = Some (PStr (severity_status damage_percent))).
Proof.
  split; [apply severity_status_severe |].
  split; [intros [? ?]; by apply severity_status_flagged |].
  split; [apply severity_status_none |].
  split; [intros [? ?]; by apply severity_status_light |].
  split; [| repeat (split; [reflexivity |]); apply build_response_data_status].
  intros d' Heq.
  destruct (Qlt_le_dec 70 d) as [H70 | H70].
  { rewrite !severity_status_severe; [done | lra | lra]. }
  destruct (Qlt_le_dec 30 d) as [H30 | H30].
  { rewrite !severity_status_flagged; [done | lra | lra | lra | lra]. }
  destruct (Qlt_le_dec d 5) as [H5 | H5].
  { rewrite !severity_status_none; [done | lra | lra]. }
  rewrite !severity_status_light; [done | lra | lra | lra | lra].
Qed.

Lemma severity_status_classification_witness :
  severity_status (7001 # 100) = "AUTOMATICALLY APPROVED (Severe Damage)"
  ∧ severity_status (7000 # 100) = "FLAGGED FOR REVIEW (Considerable Damage)"
  ∧ severity_status (499 # 100) = "No Significant Damage Detected"
  ∧ severity_status (500 # 100) = "Light Damage Detected".
Proof.
  pose (EE := Scenes.provider Scenes.flooded_catalogue). pose (PT := Scenes.text).
  split; [| split; [| split]].
  - apply (proj1 (severity_status_classification (7001 # 100))). reflexivity.
  - apply (proj1 (proj2 (severity_status_classification (7000 # 100)))).
    split; [reflexivity | discriminate].
  - apply (proj1 (proj2 (proj2 (severity_status_classification (499 # 100))))).
    reflexivity.
  - apply (proj1 (proj2 (proj2 (proj2 (severity_status_classification (500 # 100)))))).
    split; discriminate.
Defined.

(** ** Rounding *)

Lemma round_half_even_floor (x : Q) : (Qfloor x <= round_half_even x)%Z.
Proof.
  unfold round_half_even.
  destruct (Qcompare _ _); [destruct (Z.even _) | |]; lia.
Qed.

Lemma round_half_even_le (x : Q) (n : Z) :
  (x <= inject_Z n)%Q → (round_half_even x <= n)%Z.
Proof.
  intros Hx. unfold round_half_even.
  pose proof (Qfloor_le x) as Hf.
  assert (Hfn : (Qfloor x <= n)%Z) by (rewrite Zle_Qle; lra).
  assert (Hstep : (inject_Z (Qfloor x) < x)%Q → (Qfloor x + 1 <= n)%Z).
  { intros Hlt. assert (Qfloor x < n)%Z by (rewrite Zlt_Qlt; lra). lia. }
  destruct (Qcompare (x - inject_Z (Qfloor x)) (1 # 2)) eqn:Hc.
  - apply Qeq_alt in Hc. destruct (Z.even _); [done | apply Hstep; lra].
  - done.
  - apply Qgt_alt in Hc. apply Hstep; lra.
Qed.

Lemma round_half_even_cases (x : Q) :
  round_half_even x = Qfloor x ∨ round_half_even x = (Qfloor x + 1)%Z.
Proof.
  unfold round_half_even.
  destruct (Qcompare _ _); [destruct (Z.even _) | |]; auto.
Qed.

Lemma round_half_even_mono (x y : Q) :
  (x <= y)%Q → (round_half_even x <= round_half_even y)%Z.
Proof.
  intros Hxy.
  pose proof (Qfloor_resp_le x y Hxy) as Hfl.
  destruct (Z.eq_dec (Qfloor x) (Qfloor y)) as [Heq | Hne].
  - unfold round_half_even. rewrite Heq.
    destruct (Qcompare_spec (x - inject_Z (Qfloor y)) (1 # 2));
      destruct (Qcompare_spec (y - inject_Z (Qfloor y)) (1 # 2));
      try (destruct (Z.even (Qfloor y))); try lia; exfalso; lra.
  - pose proof (round_half_even_floor y).
    destruct (round_half_even_cases x); lia.
Qed.

Lemma round_half_even_Z (n : Z) : round_half_even (inject_Z n) = n.
Proof.
  unfold round_half_even. rewrite Qfloor_Z.
  assert (Hc : Qcompare (inject_Z n - inject_Z n) (1 # 2) = Lt)
    by (rewrite <- Qlt_alt; lra).
  by rewrite Hc.
Qed.

(** *** Powers of two *)

Lemma pow2_pos (e : Z) : (0 < 2 ^ e)%Q.
Proof. by apply Qpower_0_lt. Qed.

Lemma pow2_le (a b : Z) : (a <= b)%Z → (2 ^ a <= 2 ^ b)%Q.
Proof. intros H. by apply Qpower_le_compat_l. Qed.

Lemma pow2_plus (a b : Z) : (2 ^ (a + b) == 2 ^ a * 2 ^ b)%Q.
Proof. by apply Qpower_plus. Qed.

Lemma pow2_Z (n : Z) : (0 <= n)%Z → (inject_Z (2 ^ n) == 2 ^ n)%Q.
Proof. intros H. by rewrite (Zpower_Qpower 2 n H). Qed.

(** *** The binary logarithm of a positive rational *)

Lemma ilog2_spec (q : Q) :
  (0 < q)%Q → (2 ^ ilog2 q <= q)%Q ∧ (q < 2 ^ (ilog2 q + 1))%Q.
Proof.
  intros Hq. destruct q as [n d]. unfold ilog2. cbn [Qnum Qden].
  assert (Hn : (0 < n)%Z) by (unfold Qlt in Hq; simpl in Hq; lia).
  set (a := Z.log2 n). set (b := Z.log2 (Z.pos d)).
  destruct (Z.log2_spec n Hn) as [Ha1 Ha2]. fold a in Ha1, Ha2.
  destruct (Z.log2_spec (Z.pos d) eq_refl) as [Hb1 Hb2]. fold b in Hb1, Hb2.
  assert (Ha0 : (0 <= a)%Z) by apply Z.log2_nonneg.
  assert (Hb0 : (0 <= b)%Z) by apply Z.log2_nonneg.
  assert (Hq' : (n # d == inject_Z n / inject_Z (Z.pos d))%Q) by apply Qmake_Qdiv.
  assert (Hdpos : (0 < inject_Z (Z.pos d))%Q) by (rewrite <- (Zlt_Qlt 0); lia).
  assert (HA1 : (2 ^ a <= inject_Z n)%Q) by (rewrite <- pow2_Z, <- Zle_Qle; lia).
  assert (HA2 : (inject_Z n < 2 ^ (a + 1))%Q).
  { rewrite <- pow2_Z, <- Zlt_Qlt by lia. by rewrite <- Z.add_1_r in Ha2. }
  assert (HB1 : (2 ^ b <= inject_Z (Z.pos d))%Q) by (rewrite <- pow2_Z, <- Zle_Qle; lia).
  assert (HB2 : (inject_Z (Z.pos d) < 2 ^ (b + 1))%Q).
  { rewrite <- pow2_Z, <- Zlt_Qlt by lia. by rewrite <- Z.add_1_r in Hb2. }
  assert (Hup : (n # d < 2 ^ (a - b + 1))%Q).
  { rewrite Hq'. apply Qlt_shift_div_r; [done |].
    assert (E : (2 ^ (a + 1) == 2 ^ (a - b + 1) * 2 ^ b)%Q).
    { rewrite <- pow2_plus. by replace (a - b + 1 + b)%Z with (a + 1)%Z by lia. }
    pose proof (pow2_pos (a - b + 1)). pose proof (pow2_pos b).
    set (P := (2 ^ (a - b + 1))%Q) in *. set (B := (2 ^ b)%Q) in *.
    set (D := inject_Z (Z.pos d)) in *. set (N := inject_Z n) in *.
    rewrite E in HA2. nra. }
  assert (Hlow : (2 ^ (a - b - 1) <= n # d)%Q).
  { rewrite Hq'. apply Qle_shift_div_l; [done |].
    assert (E : (2 ^ a == 2 ^ (a - b - 1) * 2 ^ (b + 1))%Q).
    { rewrite <- pow2_plus. by replace (a - b - 1 + (b + 1))%Z with a by lia. }
    pose proof (pow2_pos (a - b - 1)). pose proof (pow2_pos (b + 1)).
    set (P := (2 ^ (a - b - 1))%Q) in *. set (B := (2 ^ (b + 1))%Q) in *.
    set (D := inject_Z (Z.pos d)) in *. set (N := inject_Z n) in *.
    rewrite E in HA1. nra. }
  destruct (Qle_bool (2 ^ (a - b)) (n # d)) eqn:Hle.
  - apply Qle_bool_iff in Hle. done.
  - split; [done |]. replace (a - b - 1 + 1)%Z with (a - b)%Z by lia.
    apply Qnot_le_lt. intros Hcontra. apply Qle_bool_iff in Hcontra. congruence.
Qed.

Lemma ilog2_mono (x y : Q) : (0 < x)%Q → (x <= y)%Q → (ilog2 x <= ilog2 y)%Z.
Proof.
  intros Hx Hxy.
  destruct (ilog2_spec x Hx) as [Hx1 _].
  destruct (ilog2_spec y) as [_ Hy2]; [lra |].
  destruct (Z_le_gt_dec (ilog2 x) (ilog2 y)) as [? | Hgt]; [done |].
  assert (Hstep : (ilog2 y + 1 <= ilog2 x)%Z) by lia.
  pose proof (pow2_le _ _ Hstep). lra.
Qed.

(** *** Rounding to binary64 *)

Lemma float_exponent_mono (x y : Q) :
  (0 < x)%Q → (x <= y)%Q → (float_exponent x <= float_exponent y)%Z.
Proof.
  intros Hx Hxy. unfold float_exponent.
  pose proof (ilog2_mono x y Hx Hxy). lia.
Qed.

Lemma round_to_grid_upper (q : Q) :
  (0 < q)%Q → (round_to_grid q <= 2 ^ (float_exponent q + 53))%Q.
Proof.
  intros Hq. unfold round_to_grid. set (e := float_exponent q).
  destruct (ilog2_spec q Hq) as [_ Hup].
  assert (He : (ilog2 q + 1 <= e + 53)%Z) by (unfold e, float_exponent; lia).
  pose proof (pow2_le _ _ He) as Hle. pose proof (pow2_pos e) as Hpos.
  rewrite (pow2_plus e 53) in Hle |- *.
  assert (Hr : (round_half_even (q / 2 ^ e) <= 2 ^ 53)%Z).
  { apply round_half_even_le. rewrite pow2_Z by lia.
    apply Qle_shift_div_r; [done |]. lra. }
  rewrite Zle_Qle, pow2_Z in Hr by lia.
  set (P := (2 ^ e)%Q) in *. set (R := inject_Z (round_half_even (q / P))) in *.
  set (T := (2 ^ 53)%Q) in *. nra.
Qed.

Lemma round_to_grid_lower (q : Q) :
  (0 < q)%Q → (-1074 < float_exponent q)%Z →
  (2 ^ (float_exponent q + 52) <= round_to_grid q)%Q.
Proof.
  intros Hq Hnormal. unfold round_to_grid. set (e := float_exponent q) in *.
  destruct (ilog2_spec q Hq) as [Hlow _].
  assert (He : (e + 52 = ilog2 q)%Z) by (unfold e, float_exponent in *; lia).
  rewrite <- He in Hlow. pose proof (pow2_pos e) as Hpos.
  rewrite (pow2_plus e 52) in Hlow |- *.
  assert (Hr : (2 ^ 52 <= round_half_even (q / 2 ^ e))%Z).
  { pose proof (round_half_even_floor (q / 2 ^ e)).
    assert (2 ^ 52 <= Qfloor (q / 2 ^ e))%Z; [| lia].
    rewrite <- (Qfloor_Z (2 ^ 52)). apply Qfloor_resp_le.
    rewrite pow2_Z by lia. apply Qle_shift_div_l; [done |]. lra. }
  rewrite Zle_Qle, pow2_Z in Hr by lia.
  set (P := (2 ^ e)%Q) in *. set (R := inject_Z (round_half_even (q / P))) in *.
  set (T := (2 ^ 52)%Q) in *. nra.
Qed.

Lemma round_to_grid_mono (x y : Q) :
  (0 < x)%Q → (x <= y)%Q → (round_to_grid x <= round_to_grid y)%Q.
Proof.
  intros Hx Hxy.
  pose proof (float_exponent_mono x y Hx Hxy) as He.
  destruct (Z.eq_dec (float_exponent x) (float_exponent y)) as [Heq | Hne].
  - unfold round_to_grid. rewrite Heq. set (e := float_exponent y).
    pose proof (pow2_pos e) as Hpos.
    assert (Hdiv : (x / 2 ^ e <= y / 2 ^ e)%Q).
    { unfold Qdiv. apply Qmult_le_compat_r; [done |].
      by apply Qlt_le_weak, Qinv_lt_0_compat. }
    pose proof (round_half_even_mono _ _ Hdiv) as Hr. rewrite Zle_Qle in Hr.
    set (P := (2 ^ e)%Q) in *. nra.
  - assert (Hy : (0 < y)%Q) by lra.
    assert (Hnormal : (-1074 < float_exponent y)%Z).
    { unfold float_exponent in *. lia. }
    pose proof (round_to_grid_upper x Hx) as Hup.
    pose proof (round_to_grid_lower y Hy Hnormal) as Hlow.
    assert (Hstep : (float_exponent x + 53 <= float_exponent y + 52)%Z) by lia.
    pose proof (pow2_le _ _ Hstep). lra.
Qed.

Lemma round_to_grid_nonneg (q : Q) : (0 <= q)%Q → (0 <= round_to_grid q)%Q.
Proof.
  intros Hq. unfold round_to_grid. set (e := float_exponent q).
  pose proof (pow2_pos e) as Hpos.
  assert (Hr : (0 <= round_half_even (q / 2 ^ e))%Z).
  { pose proof (round_half_even_floor (q / 2 ^ e)).
    assert (0 <= Qfloor (q / 2 ^ e))%Z; [| lia].
    rewrite <- (Qfloor_Z 0). apply Qfloor_resp_le.
    change (inject_Z 0) with 0%Q. apply Qle_shift_div_l; [done |]. lra. }
  rewrite Zle_Qle in Hr. change (inject_Z 0) with 0%Q in Hr.
  set (P := (2 ^ e)%Q) in *. nra.
Qed.

Lemma binary64_positive (q : Q) : (0 < q)%Q → binary64 q = round_to_grid q.
Proof.
  intros Hq. unfold binary64. destruct q as [[| p | p] d]; try done.
Qed.

Lemma binary64_zero (q : Q) : (q == 0)%Q → binary64 q = 0%Q.
Proof.
  intros Hq. unfold binary64. destruct q as [[| p | p] d]; try done.
Qed.

Lemma binary64_nonneg (q : Q) : (0 <= q)%Q → (0 <= binary64 q)%Q.
Proof.
  intros Hq. destruct (Qlt_le_dec 0 q) as [Hpos | Hle].
  - rewrite binary64_positive by done. by apply round_to_grid_nonneg.
  - rewrite binary64_zero by lra. lra.
Qed.

Lemma binary64_mono (x y : Q) : (0 <= x)%Q → (x <= y)%Q → (binary64 x <= binary64 y)%Q.
Proof.
  intros Hx Hxy. destruct (Qlt_le_dec 0 x) as [Hpos | Hle].
  - rewrite !binary64_positive by lra. by apply round_to_grid_mono.
  - rewrite (binary64_zero x) by lra. apply binary64_nonneg. lra.
Qed.

Lemma binary64_1 : (binary64 1 == 1)%Q.
Proof. vm_compute. reflexivity. Qed.

Lemma binary64_100 : (binary64 100 == 100)%Q.
Proof. vm_compute. reflexivity. Qed.

(** Between nothing and the whole area the percentage stays between 0 and
    100: every rounding step is monotone and keeps 0, 1 and 100. *)
Lemma area_percent_range (m a : Q) :
  (0 <= m)%Q → (m <= a)%Q → (0 < a)%Q →
  (0 <= area_percent m a)%Q ∧ (area_percent m a <= 100)%Q.
Proof.
  intros Hm Hma Ha. unfold area_percent, py_round2, py_mul.
  assert (Hq0 : (0 <= m / a)%Q) by (apply Qle_shift_div_l; lra).
  assert (Hq1 : (m / a <= 1)%Q) by (apply Qle_shift_div_r; lra).
  set (r := binary64 (m / a)).
  assert (Hr0 : (0 <= r)%Q) by by apply binary64_nonneg.
  assert (Hr1 : (r <= 1)%Q).
  { rewrite <- binary64_1. by apply binary64_mono. }
  set (x := binary64 (r * 100)).
  assert (Hx0 : (0 <= x)%Q) by (apply binary64_nonneg; lra).
  assert (Hx1 : (x <= 100)%Q).
  { rewrite <- binary64_100. apply binary64_mono; lra. }
  set (z := round_half_even (x * 100)).
  assert (Hz0 : (0 <= z)%Z).
  { pose proof (round_half_even_floor (x * 100)).
    assert (0 <= Qfloor (x * 100))%Z; [| unfold z; lia].
    rewrite <- (Qfloor_Z 0). apply Qfloor_resp_le.
    change (inject_Z 0) with 0%Q. lra. }
  assert (Hz1 : (z <= 10000)%Z).
  { apply round_half_even_le. change (inject_Z 10000) with 10000%Q. lra. }
  assert (Hh0 : (0 <= z # 100)%Q) by (unfold Qle; simpl; lia).
  assert (Hh1 : (z # 100 <= 100)%Q) by (unfold Qle; simpl; lia).
  split; [by apply binary64_nonneg |].
  rewrite <- binary64_100. by apply binary64_mono.
Qed.

Lemma area_percent_zero (m a : Q) : (m == 0)%Q → area_percent m a = 0%Q.
Proof.
  intros Hm. unfold area_percent.
  assert (Hq : (m / a == 0)%Q) by (rewrite Hm; unfold Qdiv; lra).
  by rewrite (binary64_zero _ Hq).
Qed.

(** ** The analysis functions, run *)

Section Analysis.

Context `{EE : ee.EarthEngine} `{PT : PyFloatText}.

Lemma analyze_fire_damage_run (b a : ee.Image) (aoi : ee.Geometry) (w : World) :
  analyze_fire_damage b a aoi w =
  match burned_meters b a aoi with
  | None => (Raised none_operand, w)
  | Some m =>
      if Qeqb0 (ee.area aoi) then (Raised division_by_zero, w)
      else (Return (area_percent m (ee.area aoi), dNDVI b a), w)
  end.
Proof.
  unfold analyze_fire_damage, Dictionary_get, Number, py_div_fetched. simpl.
  destruct (burned_meters b a aoi); [| done].
  unfold mbind, M_bind, py_div. by destruct (Qeqb0 (ee.area aoi)).
Qed.

Lemma analyze_flood_damage_run (b a : ee.Image) (aoi : ee.Geometry) (w : World) :
  analyze_flood_damage b a aoi w =
  match flooded_meters b a aoi with
  | None => (Raised none_operand, w)
  | Some m =>
      if Qeqb0 (ee.area aoi) then (Raised division_by_zero, w)
      else (Return (area_percent m (ee.area aoi), NDWI_After a), w)
  end.
Proof.
  unfold analyze_flood_damage, Dictionary_get, Number, py_div_fetched. simpl.
  destruct (flooded_meters b a aoi); [| done].
  unfold mbind, M_bind, py_div. by destruct (Qeqb0 (ee.area aoi)).
Qed.

Lemma analyze_landslide_damage_run (b a : ee.Image) (aoi : ee.Geometry) (w : World) :
  analyze_landslide_damage b a aoi w =
  match slide_meters b a aoi with
  | None => (Raised none_operand, w)
  | Some m =>
      if Qeqb0 (ee.area aoi) then (Raised division_by_zero, w)
      else (Return (area_percent m (ee.area aoi), dNDVI b a), w)
  end.
Proof.
  unfold analyze_landslide_damage, Dictionary_get, Number, py_div_fetched. simpl.
  destruct (slide_meters b a aoi); [| done].
  unfold mbind, M_bind, py_div. by destruct (Qeqb0 (ee.area aoi)).
Qed.

(** A returning dispatch fetched a number, divided it by a non-zero area,
    and touched neither heap nor cache. *)
Lemma analysis_by_type_return (t : PyVal) (b a : ee.Image) (aoi : ee.Geometry)
    (w w' : World) (p : Q) (img : ee.Image) (vis : VisParams) :
  analysis_by_type t b a aoi w = (Return (p, img, vis), w') →
  ∃ m, masked_meters t b a aoi = Some m
       ∧ p = area_percent m (ee.area aoi)
       ∧ Qeqb0 (ee.area aoi) = false
       ∧ heap w' = heap w ∧ cache w' = cache w.
Proof.
  unfold analysis_by_type, masked_meters.
  repeat (destruct (py_eq_str t _));
    unfold mbind, M_bind, print, raise;
    rewrite ?analyze_fire_damage_run, ?analyze_flood_damage_run,
      ?analyze_landslide_damage_run;
    try discriminate;
    (match goal with |- context [match ?r with Some _ => _ | None => _ end] =>
       destruct r as [m |] end);
    try discriminate;
    (destruct (Qeqb0 (ee.area aoi)); [discriminate |]);
    intros [= <- <- <- <-]; exists m; done.
Qed.

(** A null reduction makes the dispatch of a supported type raise. *)
Lemma analysis_by_type_null (t : PyVal) (b a : ee.Image) (aoi : ee.Geometry)
    (w : World) :
  In t [PStr "fire"; PStr "flood"; PStr "hurricane"; PStr "earthquake"] →
  masked_meters t b a aoi = None →
  ∃ w', analysis_by_type t b a aoi w = (Raised none_operand, w')
        ∧ heap w' = heap w ∧ cache w' = cache w.
Proof.
  intros Ht Hnone. simpl in Ht.
  destruct Ht as [<- | [<- | [<- | [<- | []]]]];
    unfold masked_meters in Hnone; simpl in Hnone;
    unfold analysis_by_type; simpl; unfold mbind, M_bind, print;
    rewrite ?analyze_fire_damage_run, ?analyze_flood_damage_run,
      ?analyze_landslide_damage_run, Hnone; by eexists.
Qed.

End Analysis.

(** ** [get_satellite_imagery], run *)

Section Imagery.

Context `{EE : ee.EarthEngine} `{PT : PyFloatText}.

Lemma size_getInfo_zero (c : list ee.Image) :
  (size_getInfo c =? 0)%nat = true ↔ c = [].
Proof.
  unfold size_getInfo. rewrite Nat.eqb_eq. destruct c; simpl; split; (done || lia).
Qed.

Lemma get_satellite_imagery_no_imagery (lat lon : Q) (d t : PyVal) (w : World) :
  collection_before (area_of_interest lat lon) d = []
  ∨ collection_after (area_of_interest lat lon) d = [] →
  get_satellite_imagery lat lon d t w = (Raised (Exception no_imagery_message), w).
Proof.
  intros Hempty. unfold get_satellite_imagery.
  destruct Hempty as [-> | ->]; simpl; [done |].
  by rewrite orb_true_r.
Qed.

Lemma get_satellite_imagery_selected (lat lon : Q) (d t : PyVal) (w : World) :
  let aoi := area_of_interest lat lon in
  let image_before := ee.clip (image_before_obj aoi d) aoi in
  let image_after := ee.clip (image_after_obj aoi d) aoi in
  collection_before aoi d ≠ [] → collection_after aoi d ≠ [] →
  get_satellite_imagery lat lon d t w =
  match analysis_by_type t image_before image_after aoi w with
  | (Return (damage_percent, analysis_image, vis), w') =>
      (Return (ee.getThumbUrl image_before (mkVis 0 3000 [] ["B4"; "B3"; "B2"]),
               ee.getThumbUrl image_after (mkVis 0 3000 [] ["B4"; "B3"; "B2"]),
               ee.getThumbUrl analysis_image vis,
               damage_percent), w')
  | (Raised e, w') => (Raised e, w')
  end.
Proof.
  intros aoi image_before image_after Hb Ha. unfold get_satellite_imagery.
  fold aoi.
  destruct (size_getInfo (collection_before aoi d) =? 0)%nat eqn:Eb.
  { apply size_getInfo_zero in Eb. done. }
  destruct (size_getInfo (collection_after aoi d) =? 0)%nat eqn:Ea.
  { apply size_getInfo_zero in Ea. done. }
  simpl. unfold mbind, M_bind. fold image_before image_after.
  destruct (analysis_by_type t image_before image_after aoi w) as [[[[p img] vis] | e] w'];
    reflexivity.
Qed.

(** A returning call selected a pair of images and returns what the dispatch
    computed on the clipped pair. *)
Lemma get_satellite_imagery_return (lat lon : Q) (d t : PyVal) (w w' : World)
    (u1 u2 u3 : string) (dp : Q) :
  let aoi := area_of_interest lat lon in
  let image_before := ee.clip (image_before_obj aoi d) aoi in
  let image_after := ee.clip (image_after_obj aoi d) aoi in
  get_satellite_imagery lat lon d t w = (Return (u1, u2, u3, dp), w') →
  collection_before aoi d ≠ [] ∧ collection_after aoi d ≠ []
  ∧ ∃ img vis,
      analysis_by_type t image_before image_after aoi w = (Return (dp, img, vis), w').
Proof.
  intros aoi image_before image_after Hrun.
  destruct (collection_before aoi d) as [| xb lb] eqn:Eb.
  { rewrite get_satellite_imagery_no_imagery in Hrun; [done | by left]. }
  destruct (collection_after aoi d) as [| xa la] eqn:Ea.
  { rewrite get_satellite_imagery_no_imagery in Hrun; [done | by right]. }
  split; [done | split; [done |]].
  rewrite get_satellite_imagery_selected in Hrun; fold aoi; [| by rewrite Eb | by rewrite Ea].
  subst image_before image_after aoi.
  destruct (analysis_by_type t _ _ _ w) as [[[[p img] vis] | e] w''] eqn:Hrun'; [| done].
  injection Hrun as _ _ _ <- <-. by exists img, vis.
Qed.

End Imagery.

(** ** Range of the damage percentage *)

(** C2, amended.  When [get_satellite_imagery] returns, the sum reduction of
    the branch's mask was a number [m], the area [a] of the region was not
    zero, and the damage percentage is [round((m / a) * 100, 2)] evaluated in
    binary64 arithmetic: the binary64 number nearest to a whole number of
    hundredths.  It lies in [0, 100] whenever [m] lies between 0 and [a].  No
    clamp is applied: for a reduction of 3141000 over an area of 3140625 the
    same expression is above 100. *)
Theorem damage_percent_range `{EE : ee.EarthEngine} `{PT : PyFloatText}
    (lat lon : Q) (d t : PyVal) (w w' : World) (u1 u2 u3 : string) (dp : Q) :
  let aoi := area_of_interest lat lon in
  let image_before := ee.clip (image_before_obj aoi d) aoi in
  let image_after := ee.clip (image_after_obj aoi d) aoi in
  get_satellite_imagery lat lon d t w = (Return (u1, u2, u3, dp), w') →
  (∃ m : Q,
     masked_meters t image_before image_after aoi = Some m
     ∧ ¬ (ee.area aoi == 0)%Q
     ∧ dp = py_round2 (py_mul (binary64 (m / ee.area aoi)) 100)
     ∧ (∃ z : Z, dp = binary64 (z # 100))
     ∧ ((0 <= m)%Q ∧ (m <= ee.area aoi)%Q → (0 <= dp)%Q ∧ (dp <= 100)%Q))
  ∧ ¬ (py_round2 (py_mul (binary64 (3141000 / 3140625)) 100) <= 100)%Q.
Proof.
  intros aoi image_before image_after Hrun.
  split; [| vm_compute; intros H; by apply H].
  apply get_satellite_imagery_return in Hrun as (_ & _ & img & vis & Hrun).
  apply analysis_by_type_return in Hrun as (m & Hm & -> & Harea & _ & _).
  fold aoi image_before image_after in Hm. fold aoi in Harea |- *.
  apply Qeqb0_neq in Harea.
  exists m. split; [done |]. split; [done |]. split; [done |].
  split; [eexists; reflexivity |].
  intros [Hlo Hhi]. apply area_percent_range; [done | done | lra].
Qed.

Lemma damage_percent_range_witness :
  (0 <= binary64 (5001 # 100))%Q ∧ (binary64 (5001 # 100) <= 100)%Q.
Proof.
  destruct (proj1
    (@damage_percent_range (Scenes.provider Scenes.half_flooded_catalogue) Scenes.text
       30 (-90) (PInt Scenes.event) (PStr "hurricane") Scenes.fresh
       (mkWorld [] ∅ ["Processing 'hurricane' event as a flood analysis."])
       "thumb:B3" "thumb:B3" "thumb:NDWI_After" (binary64 (5001 # 100))
       ltac:(vm_compute; reflexivity)))%Q
    as (m & Hm & _ & _ & _ & Hrange).
  vm_compute in Hm. injection Hm as <-.
  apply Hrange. split; vm_compute; discriminate.
Defined.

(** C2, as stated, fails: over a region that a full flood mask covers with
    3490 whole pixels of 900 square units, the pixel sum is 3141000 against a
    geometric area of 3140625, and [get_satellite_imagery] returns the
    binary64 number nearest to 100.01. *)
Lemma damage_percent_above_100 :
  fst (@get_satellite_imagery (Scenes.provider Scenes.flooded_catalogue) Scenes.text
         30 (-90) (PInt Scenes.event) (PStr "flood") Scenes.fresh)
  = Return ("thumb:B3", "thumb:B3", "thumb:NDWI_After", binary64 (10001 # 100))
  ∧ ¬ (binary64 (10001 # 100) <= 100)%Q.
Proof.
  split; [vm_compute; reflexivity |].
  intros H. vm_compute in H. by apply H.
Qed.

(** ** Empty masks *)

(** C3 does not hold of the code.  Over two images of the same unchanged
    land no pixel passes any of the three mask conditions and the sum
    reductions are null.  The [is None] test of each analysis function is
    applied to the object returned by [.get(band)], so it does not catch the
    null; the fetched [None] is divided by the area and [TypeError] is raised.
    [get_satellite_imagery] raises for fire, flood and earthquake alike, and
    the view answers with status 500 instead of a percentage of 0.0. *)
Lemma empty_mask_raises_type_error :
  @masked_meters (Scenes.provider Scenes.quiet_catalogue) (PStr "fire")
    (@image_before_obj (Scenes.provider Scenes.quiet_catalogue) Scenes.aoi Scenes.date)
    (@image_after_obj (Scenes.provider Scenes.quiet_catalogue) Scenes.aoi Scenes.date)
    Scenes.aoi = None
  ∧ ∃ msg : string,
      fst (@get_satellite_imagery (Scenes.provider Scenes.quiet_catalogue) Scenes.text
             30 (-90) Scenes.date (PStr "fire") Scenes.fresh)
      = Raised (TypeError msg)
      ∧ fst (@get_satellite_imagery (Scenes.provider Scenes.quiet_catalogue) Scenes.text
               30 (-90) Scenes.date (PStr "flood") Scenes.fresh)
        = Raised (TypeError msg)
      ∧ fst (@get_satellite_imagery (Scenes.provider Scenes.quiet_catalogue) Scenes.text
               30 (-90) Scenes.date (PStr "earthquake") Scenes.fresh)
        = Raised (TypeError msg)
      ∧ fst (@analyze_damage_endpoint (Scenes.provider Scenes.quiet_catalogue) Scenes.text
               (Scenes.request 30 (-90) "fire") Scenes.fresh)
        = Return (mkResponse
                    {["error" := PStr ("Error in the analysis: " +:+ msg)]} 500).
Proof.
  split; [vm_compute; reflexivity |].
  exists "unsupported operand type(s) for /: 'NoneType' and 'float'".
  repeat split; vm_compute; reflexivity.
Qed.

(** ** Hurricanes are analysed as floods *)

(** C4.  On the same pair of images and the same region the dispatch for
    "hurricane" and the dispatch for "flood" are both the flood analysis: the
    same mask [flooded_area] is reduced, and the same continuous raster, the
    same percentage and the same palette come back; so [get_satellite_imagery]
    returns the same result for the two types. *)
Theorem hurricane_same_as_flood `{EE : ee.EarthEngine} `{PT : PyFloatText} :
  (∀ b a aoi w,
     fst (analysis_by_type (PStr "hurricane") b a aoi w)
     = fst (analysis_by_type (PStr "flood") b a aoi w)
     ∧ fst (analysis_by_type (PStr "flood") b a aoi w)
       = match fst (analyze_flood_damage b a aoi w) with
         | Return (damage_percent, raster) => Return (damage_percent, raster, flood_palette)
         | Raised e => Raised e
         end
     ∧ masked_meters (PStr "hurricane") b a aoi = flooded_meters b a aoi
     ∧ masked_meters (PStr "flood") b a aoi = flooded_meters b a aoi)
  ∧ (∀ lat lon d w,
       fst (get_satellite_imagery lat lon d (PStr "hurricane") w)
       = fst (get_satellite_imagery lat lon d (PStr "flood") w)).
Proof.
  assert (Hdispatch : ∀ b a aoi w,
    fst (analysis_by_type (PStr "hurricane") b a aoi w)
    = fst (analysis_by_type (PStr "flood") b a aoi w)
    ∧ fst (analysis_by_type (PStr "flood") b a aoi w)
      = match fst (analyze_flood_damage b a aoi w) with
        | Return (damage_percent, raster) => Return (damage_percent, raster, flood_palette)
        | Raised e => Raised e
        end).
  { intros b a aoi w. unfold analysis_by_type. simpl.
    unfold mbind, M_bind, print. rewrite !analyze_flood_damage_run.
    destruct (flooded_meters b a aoi); [destruct (Qeqb0 (ee.area aoi)) |]; done. }
  split.
  - intros b a aoi w. destruct (Hdispatch b a aoi w) as [H1 H2]. done.
  - intros lat lon d w. unfold get_satellite_imagery.
    destruct (_ || _); [done |].
    unfold mbind, M_bind.
    match goal with |- context [analysis_by_type (PStr "hurricane") ?b ?a ?g w] =>
      destruct (Hdispatch b a g w) as [H1 _];
      destruct (analysis_by_type (PStr "hurricane") b a g w) as [[[[p1 i1] v1] | e1] w1];
      destruct (analysis_by_type (PStr "flood") b a g w) as [[[[p2 i2] v2] | e2] w2]
    end; simpl in H1; try discriminate; by simplify_eq.
Qed.

(** ** Errors of the pipeline *)

Lemma py_eq_str_false (t : PyVal) (lit : string) :
  t ≠ PStr lit → py_eq_str t lit = false.
Proof.
  intros Hne. destruct t; simpl; try reflexivity.
  apply String.eqb_neq. congruence.
Qed.

(** C5.  A disaster type outside fire, flood, hurricane and earthquake makes
    the dispatch raise the exception whose message quotes the type and names
    the four allowed ones, whatever the images and the region; no analysis
    function runs and nothing is printed.  [get_satellite_imagery] therefore
    never returns a result for such a type: it raises this exception once a
    pair of images is selected (and the no-imagery exception of the earlier
    selection step when there is none). *)
Theorem unsupported_type_raises `{EE : ee.EarthEngine} `{PT : PyFloatText} (t : PyVal) :
  ¬ In t [PStr "fire"; PStr "flood"; PStr "hurricane"; PStr "earthquake"] →
  (∀ b a aoi w,
     analysis_by_type t b a aoi w = (Raised (Exception (unsupported_message t)), w))
  ∧ unsupported_message t
    = "Disaster type '" +:+ py_str t
      +:+ "' is not supported. Use 'fire', 'flood', 'hurricane', or 'earthquake'."
  ∧ (∀ lat lon d w,
       collection_before (area_of_interest lat lon) d ≠ [] →
       collection_after (area_of_interest lat lon) d ≠ [] →
       get_satellite_imagery lat lon d t w
       = (Raised (Exception (unsupported_message t)), w))
  ∧ (∀ lat lon d w, ∃ e, get_satellite_imagery lat lon d t w = (Raised e, w)).
Proof.
  intros Hout.
  assert (Hdispatch : ∀ b a aoi w,
    analysis_by_type t b a aoi w = (Raised (Exception (unsupported_message t)), w)).
  { intros b a aoi w. unfold analysis_by_type.
    rewrite !py_eq_str_false; [done | | | |]; intros ->; apply Hout; simpl; auto. }
  split; [done |]. split; [done |].
  assert (Hsel : ∀ lat lon d w,
    collection_before (area_of_interest lat lon) d ≠ [] →
    collection_after (area_of_interest lat lon) d ≠ [] →
    get_satellite_imagery lat lon d t w
    = (Raised (Exception (unsupported_message t)), w)).
  { intros lat lon d w Hb Ha.
    rewrite get_satellite_imagery_selected by done. by rewrite Hdispatch. }
  split; [done |].
  intros lat lon d w.
  destruct (collection_before (area_of_interest lat lon) d) as [| xb lb] eqn:Eb.
  { eexists. apply get_satellite_imagery_no_imagery. by left. }
  destruct (collection_after (area_of_interest lat lon) d) as [| xa la] eqn:Ea.
  { eexists. apply get_satellite_imagery_no_imagery. by right. }
  eexists. apply Hsel; by (rewrite Eb || rewrite Ea).
Qed.

Lemma unsupported_type_raises_witness :
  @get_satellite_imagery (Scenes.provider Scenes.flooded_catalogue) Scenes.text
    30 (-90) (PInt Scenes.event) (PStr "tsunami") Scenes.fresh
  = (Raised (Exception
       "Disaster type 'tsunami' is not supported. Use 'fire', 'flood', 'hurricane', or 'earthquake'."),
     Scenes.fresh).
Proof.
  refine (proj1 (proj2 (proj2
    (@unsupported_type_raises (Scenes.provider Scenes.flooded_catalogue) Scenes.text
       (PStr "tsunami") _))) 30 (-90) (PInt Scenes.event) Scenes.fresh _ _)%Q.
  - simpl. intros [H | [H | [H | [H | []]]]]; discriminate H.
  - vm_compute. discriminate.
  - vm_compute. discriminate.
Defined.

(** ** The endpoint, run *)

Section Endpoint.

Context `{EE : ee.EarthEngine} `{PT : PyFloatText}.

Lemma py_float_world (v : PyVal) (w : World) : snd (py_float v w) = w.
Proof.
  destruct v; simpl; try reflexivity. by destruct (float_parse s).
Qed.

(** Once both coordinates are parsed the view is the presence check
    followed by the cache lookup. *)
Lemma analyze_damage_endpoint_parsed (data : PyDict) (w : World) (lat lon : Q) :
  let disaster_date := dict_get data "disaster_date" in
  let disaster_type := dict_get data "disaster_type" in
  let cache_key := cache_key_of lat lon disaster_date disaster_type in
  fst (py_float (dict_get data "lat") w) = Return lat →
  fst (py_float (dict_get data "lon") w) = Return lon →
  analyze_damage_endpoint data w
  = if negb (py_all [PFloat lat; PFloat lon; disaster_date; disaster_type])
    then (Return missing_params_response, w)
    else match cache_hit (cache w !! cache_key) with
         | Some d =>
             (Return (mkResponse d 200),
              mkWorld (heap w) (cache w) (stdout w ++ ["Response returned from CACHE!"]))
         | None =>
             compute_response cache_key lat lon disaster_date disaster_type
               (mkWorld (heap w) (cache w)
                  (stdout w ++ ["CALCULATED response (not from cache)!"]))
         end.
Proof.
  intros disaster_date disaster_type cache_key Hlat Hlon.
  unfold analyze_damage_endpoint. unfold mbind at 1. unfold M_bind at 1.
  pose proof (py_float_world (dict_get data "lat") w) as Hw1.
  destruct (py_float (dict_get data "lat") w) as [o1 w1].
  simpl in Hlat, Hw1. subst o1 w1.
  unfold mbind at 1. unfold M_bind at 1.
  pose proof (py_float_world (dict_get data "lon") w) as Hw2.
  destruct (py_float (dict_get data "lon") w) as [o2 w2].
  simpl in Hlon, Hw2. subst o2 w2.
  fold disaster_date disaster_type cache_key.
  destruct (negb (py_all _)); [reflexivity |].
  unfold mbind at 1. unfold M_bind at 1. unfold cache_get at 1. cbv beta iota.
  destruct (cache_hit (cache w !! cache_key)); reflexivity.
Qed.

(** With four truthy parameters and no usable cache entry the view prints
    its notice and runs the part under [try]. *)
Lemma analyze_damage_endpoint_computed (data : PyDict) (w : World) (lat lon : Q) :
  let disaster_date := dict_get data "disaster_date" in
  let disaster_type := dict_get data "disaster_type" in
  let cache_key := cache_key_of lat lon disaster_date disaster_type in
  fst (py_float (dict_get data "lat") w) = Return lat →
  fst (py_float (dict_get data "lon") w) = Return lon →
  py_all [PFloat lat; PFloat lon; disaster_date; disaster_type] = true →
  cache_hit (cache w !! cache_key) = None →
  analyze_damage_endpoint data w
  = compute_response cache_key lat lon disaster_date disaster_type
      (mkWorld (heap w) (cache w) (stdout w ++ ["CALCULATED response (not from cache)!"])).
Proof.
  intros disaster_date disaster_type cache_key Hlat Hlon Hall Hmiss.
  rewrite (analyze_damage_endpoint_parsed data w lat lon) by done.
  fold disaster_date disaster_type cache_key. by rewrite Hall, Hmiss.
Qed.

End Endpoint.

(** C6.  Whatever the disaster type, when the before partition or the after
    partition of the cloud-filtered imagery is empty, [get_satellite_imagery]
    raises the no-imagery exception; the view catches it and answers with an
    error body that carries the message (status 500), and it leaves heap and
    cache as they were: no report is built, no default value is returned. *)
Theorem no_imagery_raises `{EE : ee.EarthEngine} `{PT : PyFloatText}
    (lat lon : Q) (d t : PyVal) (w : World) :
  collection_before (area_of_interest lat lon) d = []
  ∨ collection_after (area_of_interest lat lon) d = [] →
  get_satellite_imagery lat lon d t w = (Raised (Exception no_imagery_message), w)
  ∧ (∀ key,
       compute_response key lat lon d t w
       = (Return (mkResponse
                    {["error" := PStr ("Error in the analysis: " +:+ no_imagery_message)]}
                    500),
          mkWorld (heap w) (cache w)
            (stdout w ++ ["Error in the GEE analysis: " +:+ no_imagery_message])))
  ∧ (∀ data,
       fst (py_float (dict_get data "lat") w) = Return lat →
       fst (py_float (dict_get data "lon") w) = Return lon →
       dict_get data "disaster_date" = d →
       dict_get data "disaster_type" = t →
       py_all [PFloat lat; PFloat lon; d; t] = true →
       cache_hit (cache w !! cache_key_of lat lon d t) = None →
       fst (analyze_damage_endpoint data w)
       = Return (mkResponse
                   {["error" := PStr ("Error in the analysis: " +:+ no_imagery_message)]}
                   500)).
Proof.
  intros Hempty.
  assert (Hrun : ∀ w0, get_satellite_imagery lat lon d t w0
                       = (Raised (Exception no_imagery_message), w0)).
  { intros w0. by apply get_satellite_imagery_no_imagery. }
  assert (Hview : ∀ key w0,
    compute_response key lat lon d t w0
    = (Return (mkResponse
                 {["error" := PStr ("Error in the analysis: " +:+ no_imagery_message)]}
                 500),
       mkWorld (heap w0) (cache w0)
         (stdout w0 ++ ["Error in the GEE analysis: " +:+ no_imagery_message]))).
  { intros key w0. unfold compute_response, try_except, build_response_data.
    unfold mbind at 1. unfold M_bind at 1.
    unfold mbind at 1. unfold M_bind at 1.
    rewrite Hrun. reflexivity. }
  split; [done |]. split; [done |].
  intros data Hlat Hlon <- <- Hall Hmiss.
  rewrite (analyze_damage_endpoint_computed data w lat lon) by done.
  by rewrite Hview.
Qed.

Lemma no_imagery_raises_witness :
  @get_satellite_imagery (Scenes.provider []) Scenes.text
    30 (-90) (PInt Scenes.event) (PStr "flood") Scenes.fresh
  = (Raised (Exception no_imagery_message), Scenes.fresh).
Proof.
  refine (proj1 (@no_imagery_raises (Scenes.provider []) Scenes.text
                   30 (-90) (PInt Scenes.event) (PStr "flood") Scenes.fresh _))%Q.
  left. reflexivity.
Defined.

(** ** Selection of the image pair *)

Section Selection.

Context `{EE : ee.EarthEngine}.

Lemma insert_by_time_In (asc : bool) (x y : ee.Image) (l : list ee.Image) :
  In y (insert_by_time asc x l) ↔ y = x ∨ In y l.
Proof.
  induction l as [| z l IH]; simpl.
  - intuition.
  - destruct (if asc then _ else _); simpl; [intuition |].
    rewrite IH. intuition.
Qed.

Lemma sort_time_start_In (asc : bool) (y : ee.Image) (c : list ee.Image) :
  In y (sort_time_start asc c) ↔ In y c.
Proof.
  unfold sort_time_start. induction c as [| x c IH]; simpl; [done |].
  rewrite insert_by_time_In, IH. intuition.
Qed.

Lemma sort_time_start_nonempty (asc : bool) (c : list ee.Image) :
  c ≠ [] → sort_time_start asc c ≠ [].
Proof.
  destruct c as [| x c]; [done |]. intros _ Hnil.
  assert (Hin : In x (sort_time_start asc (x :: c))).
  { apply sort_time_start_In. by left. }
  rewrite Hnil in Hin. destruct Hin.
Qed.

(** The head of an ascending insertion is a least element, provided the head
    of the list inserted into was one. *)
Lemma insert_by_time_head_asc (x : ee.Image) (l : list ee.Image) :
  (∀ y, In y l → (ee.time_start (first l) <= ee.time_start y)%Z) →
  ∀ y, In y (insert_by_time true x l) →
    (ee.time_start (first (insert_by_time true x l)) <= ee.time_start y)%Z.
Proof.
  destruct l as [| z l]; simpl.
  - intros _ y [<- | []]. unfold first. simpl. lia.
  - intros Hhead y.
    destruct (ee.time_start x <=? ee.time_start z)%Z eqn:Hcmp; unfold first; simpl.
    + apply Z.leb_le in Hcmp. intros [<- | Hy]; [lia |].
      specialize (Hhead y Hy). unfold first in Hhead. simpl in Hhead. lia.
    + apply Z.leb_gt in Hcmp. intros [<- | Hy]; [lia |].
      apply insert_by_time_In in Hy as [-> | Hy]; [lia |].
      specialize (Hhead y (or_intror Hy)). unfold first in Hhead. simpl in Hhead. lia.
Qed.

Lemma insert_by_time_head_desc (x : ee.Image) (l : list ee.Image) :
  (∀ y, In y l → (ee.time_start y <= ee.time_start (first l))%Z) →
  ∀ y, In y (insert_by_time false x l) →
    (ee.time_start y <= ee.time_start (first (insert_by_time false x l)))%Z.
Proof.
  destruct l as [| z l]; simpl.
  - intros _ y [<- | []]. unfold first. simpl. lia.
  - intros Hhead y.
    destruct (ee.time_start z <=? ee.time_start x)%Z eqn:Hcmp; unfold first; simpl.
    + apply Z.leb_le in Hcmp. intros [<- | Hy]; [lia |].
      specialize (Hhead y Hy). unfold first in Hhead. simpl in Hhead. lia.
    + apply Z.leb_gt in Hcmp. intros [<- | Hy]; [lia |].
      apply insert_by_time_In in Hy as [-> | Hy]; [lia |].
      specialize (Hhead y (or_intror Hy)). unfold first in Hhead. simpl in Hhead. lia.
Qed.

Lemma sort_ascending_first (c : list ee.Image) (y : ee.Image) :
  In y c →
  (ee.time_start (first (sort_time_start true c)) <= ee.time_start y)%Z.
Proof.
  intros Hy. apply (sort_time_start_In true) in Hy. revert y Hy.
  unfold sort_time_start. induction c as [| x c IH]; simpl; [done |].
  by apply insert_by_time_head_asc.
Qed.

Lemma sort_descending_first (c : list ee.Image) (y : ee.Image) :
  In y c →
  (ee.time_start y <= ee.time_start (first (sort_time_start false c)))%Z.
Proof.
  intros Hy. apply (sort_time_start_In false) in Hy. revert y Hy.
  unfold sort_time_start. induction c as [| x c IH]; simpl; [done |].
  by apply insert_by_time_head_desc.
Qed.

Lemma first_In (c : list ee.Image) : c ≠ [] → In (first c) c.
Proof. destruct c; [done |]. intros _. by left. Qed.

Lemma sort_first_In (asc : bool) (c : list ee.Image) :
  c ≠ [] → In (first (sort_time_start asc c)) c.
Proof.
  intros Hc. apply (sort_time_start_In asc), first_In.
  by apply sort_time_start_nonempty.
Qed.

Lemma filterDate_In (start stop : Z) (c : list ee.Image) (x : ee.Image) :
  In x (filterDate start stop c)
  ↔ In x c ∧ (start <= ee.time_start x)%Z ∧ (ee.time_start x < stop)%Z.
Proof.
  unfold filterDate. rewrite filter_In, andb_true_iff, Z.leb_le, Z.ltb_lt. reflexivity.
Qed.

Lemma eligible_In (aoi : ee.Geometry) (x : ee.Image) :
  In x (eligible aoi)
  ↔ In x (ee.ImageCollection "COPERNICUS/S2_SR_HARMONIZED")
    ∧ ee.intersects x aoi = true
    ∧ (ee.cloudy_pixel_percentage x < 15)%Q.
Proof.
  unfold eligible, filter_cloud_lt, filterBounds.
  rewrite !filter_In, Qltb_lt. intuition.
Qed.

End Selection.

(** C7.  When both partitions are non-empty the image taken from the before
    partition has the latest acquisition time of that partition and the image
    taken from the after partition the earliest of its own; the analysis runs
    on these two images clipped to the region.  Hence the before image is
    strictly older than the after image, the before image lies between three
    months before the event (included) and the event (excluded), and the
    after image between the event (included) and three months after it
    (excluded). *)
Theorem selected_pair_closest_to_event `{EE : ee.EarthEngine} `{PT : PyFloatText}
    (lat lon : Q) (d t : PyVal) (w : World) :
  let aoi := area_of_interest lat lon in
  let date_disaster_start := ee.Date d in
  let before := image_before_obj aoi d in
  let after := image_after_obj aoi d in
  collection_before aoi d ≠ [] → collection_after aoi d ≠ [] →
  (In before (collection_before aoi d)
   ∧ ∀ x, In x (collection_before aoi d) → (ee.time_start x <= ee.time_start before)%Z)
  ∧ (In after (collection_after aoi d)
     ∧ ∀ x, In x (collection_after aoi d) → (ee.time_start after <= ee.time_start x)%Z)
  ∧ (ee.time_start before < ee.time_start after)%Z
  ∧ (ee.advance date_disaster_start (-3) "month" <= ee.time_start before
     ∧ ee.time_start before < date_disaster_start)%Z
  ∧ (date_disaster_start <= ee.time_start after
     ∧ ee.time_start after < ee.advance date_disaster_start 3 "month")%Z
  ∧ get_satellite_imagery lat lon d t w
    = match analysis_by_type t (ee.clip before aoi) (ee.clip after aoi) aoi w with
      | (Return (damage_percent, analysis_image, vis), w') =>
          (Return (ee.getThumbUrl (ee.clip before aoi) (mkVis 0 3000 [] ["B4"; "B3"; "B2"]),
                   ee.getThumbUrl (ee.clip after aoi) (mkVis 0 3000 [] ["B4"; "B3"; "B2"]),
                   ee.getThumbUrl analysis_image vis,
                   damage_percent), w')
      | (Raised e, w') => (Raised e, w')
      end.
Proof.
  intros aoi date_disaster_start before after Hb Ha.
  assert (Hbin : In before (collection_before aoi d)) by by apply sort_first_In.
  assert (Hain : In after (collection_after aoi d)) by by apply sort_first_In.
  pose proof Hbin as Hbw. pose proof Hain as Haw.
  apply filterDate_In in Hbw as (_ & Hb1 & Hb2).
  apply filterDate_In in Haw as (_ & Ha1 & Ha2).
  fold date_disaster_start in Hb1, Hb2, Ha1, Ha2.
  split; [split; [done | apply sort_descending_first] |].
  split; [split; [done | apply sort_ascending_first] |].
  split; [lia |]. split; [done |]. split; [done |].
  by apply get_satellite_imagery_selected.
Qed.

Lemma selected_pair_closest_to_event_witness :
  (Scenes.sc_time (@image_before_obj (Scenes.provider Scenes.hazy_catalogue)
                     Scenes.aoi Scenes.date)
   < Scenes.sc_time (@image_after_obj (Scenes.provider Scenes.hazy_catalogue)
                       Scenes.aoi Scenes.date))%Z.
Proof.
  refine (proj1 (proj2 (proj2
    (@selected_pair_closest_to_event (Scenes.provider Scenes.hazy_catalogue) Scenes.text
       30 (-90) (PInt Scenes.event) (PStr "flood") Scenes.fresh _ _))))%Q.
  - vm_compute. discriminate.
  - vm_compute. discriminate.
Defined.

(** C8, amended.  When both partitions are non-empty each selected image is
    an eligible image of its own window: a catalogue image that intersects the
    region, has cloud cover below 15 and was acquired in the three months
    before the event (before image) or in the three months from the event on
    (after image).  Among the eligible images of its window it is chosen by
    acquisition time alone: no eligible image of the before window is more
    recent than the before image, none of the after window is earlier than
    the after image.  Cloud cover is not compared beyond the eligibility
    filter. *)
Theorem selected_images_eligible_by_time `{EE : ee.EarthEngine}
    (aoi : ee.Geometry) (d : PyVal) :
  let catalogue := ee.ImageCollection "COPERNICUS/S2_SR_HARMONIZED" in
  let date_disaster_start := ee.Date d in
  let date_before_start := ee.advance date_disaster_start (-3) "month" in
  let date_after_end := ee.advance date_disaster_start 3 "month" in
  let before := image_before_obj aoi d in
  let after := image_after_obj aoi d in
  collection_before aoi d ≠ [] → collection_after aoi d ≠ [] →
  (In before catalogue ∧ ee.intersects before aoi = true
   ∧ (ee.cloudy_pixel_percentage before < 15)%Q
   ∧ (date_before_start <= ee.time_start before < date_disaster_start)%Z
   ∧ ∀ x, In x catalogue → ee.intersects x aoi = true →
       (ee.cloudy_pixel_percentage x < 15)%Q →
       (date_before_start <= ee.time_start x < date_disaster_start)%Z →
       (ee.time_start x <= ee.time_start before)%Z)
  ∧ (In after catalogue ∧ ee.intersects after aoi = true
     ∧ (ee.cloudy_pixel_percentage after < 15)%Q
     ∧ (date_disaster_start <= ee.time_start after < date_after_end)%Z
     ∧ ∀ x, In x catalogue → ee.intersects x aoi = true →
         (ee.cloudy_pixel_percentage x < 15)%Q →
         (date_disaster_start <= ee.time_start x < date_after_end)%Z →
         (ee.time_start after <= ee.time_start x)%Z).
Proof.
  intros catalogue date_disaster_start date_before_start date_after_end
    before after Hb Ha.
  assert (Hbin : In before (collection_before aoi d)) by by apply sort_first_In.
  assert (Hain : In after (collection_after aoi d)) by by apply sort_first_In.
  apply filterDate_In in Hbin as (Hbe & Hbw). apply eligible_In in Hbe as (? & ? & ?).
  apply filterDate_In in Hain as (Hae & Haw). apply eligible_In in Hae as (? & ? & ?).
  split.
  - repeat (split; [done |]). intros x ? ? ? [? ?].
    apply sort_descending_first, filterDate_In.
    split; [by apply eligible_In | done].
  - repeat (split; [done |]). intros x ? ? ? [? ?].
    apply sort_ascending_first, filterDate_In.
    split; [by apply eligible_In | done].
Qed.

Lemma selected_images_eligible_by_time_witness :
  (Scenes.sc_cloud (@image_before_obj (Scenes.provider Scenes.hazy_catalogue)
                      Scenes.aoi Scenes.date) < 15)%Q.
Proof.
  refine (proj1 (proj2 (proj2 (proj1
    (@selected_images_eligible_by_time (Scenes.provider Scenes.hazy_catalogue)
       Scenes.aoi Scenes.date _ _))))).
  - vm_compute. discriminate.
  - vm_compute. discriminate.
Defined.

(** C8, as stated, fails: with two eligible images on each side of the
    event, the image selected before the event has cloud cover 12 although one
    with cloud cover 1 is in the same window, and the image selected after the
    event has cloud cover 9 although one with cloud cover 2 is in its
    window. *)
Lemma selected_image_not_least_cloudy :
  @collection_before (Scenes.provider Scenes.hazy_catalogue) Scenes.aoi Scenes.date ≠ []
  ∧ @collection_after (Scenes.provider Scenes.hazy_catalogue) Scenes.aoi Scenes.date ≠ []
  ∧ ¬ (∀ x,
         In x (@collection_before (Scenes.provider Scenes.hazy_catalogue)
                 Scenes.aoi Scenes.date) →
         (Scenes.sc_cloud (@image_before_obj (Scenes.provider Scenes.hazy_catalogue)
                             Scenes.aoi Scenes.date)
          <= Scenes.sc_cloud x)%Q)
  ∧ ¬ (∀ x,
         In x (@collection_after (Scenes.provider Scenes.hazy_catalogue)
                 Scenes.aoi Scenes.date) →
         (Scenes.sc_cloud (@image_after_obj (Scenes.provider Scenes.hazy_catalogue)
                             Scenes.aoi Scenes.date)
          <= Scenes.sc_cloud x)%Q).
Proof.
  split; [vm_compute; discriminate |]. split; [vm_compute; discriminate |]. split.
  - intros Hleast.
    specialize (Hleast (Scenes.land (Scenes.event - 40 * Scenes.day_ms) 1 1)).
    vm_compute in Hleast. apply Hleast; [by left | reflexivity].
  - intros Hleast.
    specialize (Hleast (Scenes.water (Scenes.event + 20 * Scenes.day_ms) 2 1)).
    vm_compute in Hleast. apply Hleast; [right; by left | reflexivity].
Qed.

(** ** The report dictionary *)

Section Report.

Context `{EE : ee.EarthEngine} `{PT : PyFloatText}.

Lemma get_satellite_imagery_frame (lat lon : Q) (d t : PyVal) (w w' : World)
    (r : string * string * string * Q) :
  get_satellite_imagery lat lon d t w = (Return r, w') →
  heap w' = heap w ∧ cache w' = cache w.
Proof.
  destruct r as [[[u1 u2] u3] dp]. intros Hrun.
  apply get_satellite_imagery_return in Hrun as (_ & _ & img & vis & Hrun).
  by apply analysis_by_type_return in Hrun as (m & _ & _ & _ & ? & ?).
Qed.

(** Every branch of the risk annotation is one assignment to the key
    [risk_context] of the dictionary it is handed. *)
Lemma add_risk_context_run (lat lon : Q) (t : PyVal) :
  ∃ risk : string, ∀ (response_data : nat) (w : World),
    add_risk_context response_data lat lon t w
    = dict_setitem response_data "risk_context" (PStr risk) w.
Proof.
  unfold add_risk_context.
  repeat match goal with
         | |- context [if ?c then _ else _] => destruct c
         end; eexists; reflexivity.
Qed.

Lemma dict_setitem_last (l : list PyDict) (d : PyDict) (c : gmap string PyDict)
    (out : list string) (k : string) (v : PyVal) :
  dict_setitem (length l) k v (mkWorld (l ++ [d]) c out)
  = (Return tt, mkWorld (l ++ [<[k := v]> d]) c out).
Proof.
  unfold dict_setitem. simpl. f_equal. f_equal.
  rewrite <- (Nat.add_0_r (length l)). by rewrite alter_app_r.
Qed.

End Report.

(** C9, amended.  A computed request builds its report dictionary once: one
    object is added to the heap and it has no [risk_context] key.  The risk
    annotation is then written into that same object, in place: it adds the
    key [risk_context], leaves every other key as constructed, and creates no
    other object.  The cache stores, and the response carries, the contents
    of the annotated object. *)
Theorem report_annotated_in_place `{EE : ee.EarthEngine} `{PT : PyFloatText}
    (key : string) (lat lon : Q) (d t : PyVal) (w w1 : World) (r : nat) :
  build_response_data lat lon d t w = (Return r, w1) →
  ∃ (report : PyDict) (risk : string),
    let annotated := <["risk_context" := PStr risk]> report in
    r = length (heap w)
    ∧ heap w1 = heap w ++ [report] ∧ cache w1 = cache w
    ∧ report !! "risk_context" = None
    ∧ add_risk_context r lat lon t w1
      = (Return tt, mkWorld (heap w ++ [annotated]) (cache w) (stdout w1))
    ∧ (∀ k, k ≠ "risk_context" → annotated !! k = report !! k)
    ∧ compute_response key lat lon d t w
      = (Return (mkResponse annotated 200),
         mkWorld (heap w ++ [annotated]) (<[key := annotated]> (cache w)) (stdout w1)).
Proof.
  intros Hbuild.
  destruct (add_risk_context_run lat lon t) as [risk Hrisk].
  unfold build_response_data in Hbuild.
  unfold mbind, M_bind in Hbuild.
  destruct (get_satellite_imagery lat lon d t w) as [[[[[u1 u2] u3] dp] | e] w0] eqn:Hrun;
    [| done].
  apply get_satellite_imagery_frame in Hrun as Hframe. destruct Hframe as [Hheap Hcache].
  unfold new_dict in Hbuild. rewrite Hheap, Hcache in Hbuild.
  injection Hbuild as <- <-.
  eexists _, risk. cbv zeta.
  split; [done |]. split; [done |]. split; [done |].
  split; [by simplify_map_eq |].
  split; [rewrite Hrisk; apply dict_setitem_last |].
  split; [intros k Hk; by rewrite lookup_insert_ne |].
  unfold compute_response, try_except, build_response_data.
  unfold mbind, M_bind. rewrite Hrun. unfold new_dict. rewrite Hheap, Hcache.
  rewrite Hrisk, dict_setitem_last.
  unfold cache_set, jsonify, deref, mbind, M_bind, mret, M_ret. simpl.
  rewrite !list_lookup_middle by done. reflexivity.
Qed.

Lemma report_annotated_in_place_witness :
  ∃ (report : PyDict) (risk : string),
    report !! "risk_context" = None
    ∧ fst (@compute_response (Scenes.provider Scenes.half_flooded_catalogue) Scenes.text
             "k" 30 (-90) Scenes.date (PStr "flood") Scenes.fresh)
      = Return (mkResponse (<["risk_context" := PStr risk]> report) 200).
Proof.
  destruct (@report_annotated_in_place
              (Scenes.provider Scenes.half_flooded_catalogue) Scenes.text
              "k" 30 (-90) Scenes.date (PStr "flood") Scenes.fresh
              (snd (@build_response_data
                      (Scenes.provider Scenes.half_flooded_catalogue) Scenes.text
                      30 (-90) Scenes.date (PStr "flood") Scenes.fresh))
              0%nat)%Q
    as (report & risk & _ & _ & _ & Hnone & _ & _ & Hview).
  - vm_compute. reflexivity.
  - exists report, risk. split; [exact Hnone |]. by rewrite Hview.
Defined.

(** C9, as stated, fails: in a flood request near New Orleans the dictionary
    built as the report is object 0 of the heap and has no [risk_context];
    after the risk annotation the heap still holds that one object, which now
    has the key: the report itself was updated, not a copy. *)
Lemma report_mutated_after_construction :
  fst Scenes.report_built = Return 0%nat
  ∧ length (heap (snd Scenes.report_built)) = 1%nat
  ∧ (heap (snd Scenes.report_built) !! 0%nat) ≫= (λ o, o !! "risk_context") = None
  ∧ length (heap (snd Scenes.report_annotated)) = 1%nat
  ∧ (heap (snd Scenes.report_annotated) !! 0%nat) ≫= (λ o, o !! "risk_context")
    = Some (PStr "ALERT! This property is in a High-Risk Flood/Storm Surge Zone designated by FEMA (e.g., Zone AE).")
  ∧ heap (snd Scenes.report_annotated) !! 0%nat ≠ heap (snd Scenes.report_built) !! 0%nat.
Proof.
  assert (Hb : (heap (snd Scenes.report_built) !! 0%nat) ≫= (λ o, o !! "risk_context") = None)
    by (vm_compute; reflexivity).
  assert (Ha : (heap (snd Scenes.report_annotated) !! 0%nat) ≫= (λ o, o !! "risk_context")
               = Some (PStr "ALERT! This property is in a High-Risk Flood/Storm Surge Zone designated by FEMA (e.g., Zone AE)."))
    by (vm_compute; reflexivity).
  split; [vm_compute; reflexivity |]. split; [vm_compute; reflexivity |].
  split; [exact Hb |]. split; [vm_compute; reflexivity |]. split; [exact Ha |].
  intros Heq. rewrite Heq, Hb in Ha. discriminate Ha.
Qed.

(** ** Presence check of the endpoint *)

(** C10.  The presence check is a truthiness test of the parsed values: for
    a request that carries all four fields and whose [lat] or [lon] parses to
    0.0, the view answers with the missing-parameter body and status 400, and
    the world is unchanged: nothing is printed, the cache is neither read into
    a response nor written, no dictionary is built; the pipeline, which is
    entered only after the notice of a computed response is printed, is not
    run, whatever the provider. *)
Theorem zero_coordinate_rejected `{EE : ee.EarthEngine} `{PT : PyFloatText}
    (data : PyDict) (w : World) (lat lon : Q) :
  is_Some (data !! "lat") → is_Some (data !! "lon") →
  is_Some (data !! "disaster_date") → is_Some (data !! "disaster_type") →
  fst (py_float (dict_get data "lat") w) = Return lat →
  fst (py_float (dict_get data "lon") w) = Return lon →
  (lat == 0 ∨ lon == 0)%Q →
  analyze_damage_endpoint data w = (Return missing_params_response, w)
  ∧ status_code missing_params_response = 400%Z
  ∧ body missing_params_response
    = {["error" := PStr "Faltan 'lat', 'lon', 'disaster_date' o 'disaster_type'"]}.
Proof.
  intros _ _ _ _ Hlat Hlon Hzero.
  split; [| done].
  rewrite (analyze_damage_endpoint_parsed data w lat lon) by done.
  assert (Hall : py_all [PFloat lat; PFloat lon; dict_get data "disaster_date";
                         dict_get data "disaster_type"] = false).
  { unfold py_all. simpl forallb.
    destruct Hzero as [Hz | Hz]; apply Qeqb0_eq in Hz; rewrite Hz; simpl.
    - reflexivity.
    - apply andb_false_r. }
  by rewrite Hall.
Qed.

Lemma zero_coordinate_rejected_witness :
  @analyze_damage_endpoint (Scenes.provider Scenes.flooded_catalogue) Scenes.text
    (Scenes.request 0 (-90) "flood") Scenes.fresh
  = (Return missing_params_response, Scenes.fresh).
Proof.
  refine (proj1 (@zero_coordinate_rejected
                   (Scenes.provider Scenes.flooded_catalogue) Scenes.text
                   (Scenes.request 0 (-90) "flood") Scenes.fresh 0 (-90) _ _ _ _ _ _ _))%Q.
  - vm_compute. eauto.
  - vm_compute. eauto.
  - vm_compute. eauto.
  - vm_compute. eauto.
  - vm_compute. reflexivity.
  - vm_compute. reflexivity.
  - left. reflexivity.
Defined.

(** * Further properties of the service *)

(** ** The pipeline and the view, in every outcome *)

Section Outcomes.

Context `{EE : ee.EarthEngine} `{PT : PyFloatText}.

Lemma py_float_any_world (v : PyVal) (w w' : World) :
  fst (py_float v w) = fst (py_float v w').
Proof.
  destruct v; simpl; try reflexivity. by destruct (float_parse s).
Qed.

Lemma py_eq_str_true (t : PyVal) (lit : string) :
  py_eq_str t lit = true → t = PStr lit.
Proof.
  destruct t; simpl; try discriminate. intros Heq.
  apply String.eqb_eq in Heq. by subst.
Qed.

(** Returning or raising, the dispatch leaves heap and cache alone. *)
Lemma analysis_by_type_heap_cache (t : PyVal) (b a : ee.Image) (aoi : ee.Geometry)
    (w : World) :
  heap (snd (analysis_by_type t b a aoi w)) = heap w
  ∧ cache (snd (analysis_by_type t b a aoi w)) = cache w.
Proof.
  unfold analysis_by_type.
  repeat (destruct (py_eq_str t _));
    unfold mbind, M_bind, print, raise;
    rewrite ?analyze_fire_damage_run, ?analyze_flood_damage_run,
      ?analyze_landslide_damage_run;
    try done;
    (match goal with |- context [match ?r with Some _ => _ | None => _ end] =>
       destruct r end);
    try (destruct (Qeqb0 (ee.area aoi))); done.
Qed.

Lemma get_satellite_imagery_heap_cache (lat lon : Q) (d t : PyVal) (w : World) :
  heap (snd (get_satellite_imagery lat lon d t w)) = heap w
  ∧ cache (snd (get_satellite_imagery lat lon d t w)) = cache w.
Proof.
  unfold get_satellite_imagery. destruct (_ || _); [done |].
  unfold mbind, M_bind.
  match goal with |- context [analysis_by_type t ?b ?a ?g w] =>
    pose proof (analysis_by_type_heap_cache t b a g w) as Hframe;
    destruct (analysis_by_type t b a g w) as [[[[p img] vis] | e] w0]
  end; exact Hframe.
Qed.

(** A returning pipeline was asked for one of the four supported types. *)
Lemma get_satellite_imagery_supported (lat lon : Q) (d t : PyVal) (w w' : World)
    (r : string * string * string * Q) :
  get_satellite_imagery lat lon d t w = (Return r, w') →
  In t [PStr "fire"; PStr "flood"; PStr "hurricane"; PStr "earthquake"].
Proof.
  destruct r as [[[u1 u2] u3] dp]. intros Hrun.
  apply get_satellite_imagery_return in Hrun as (_ & _ & img & vis & Hrun).
  unfold analysis_by_type in Hrun. simpl.
  destruct (py_eq_str t "fire") eqn:E1; [apply py_eq_str_true in E1; auto |].
  destruct (py_eq_str t "flood") eqn:E2; [apply py_eq_str_true in E2; auto |].
  destruct (py_eq_str t "hurricane") eqn:E3; [apply py_eq_str_true in E3; auto |].
  destruct (py_eq_str t "earthquake") eqn:E4; [apply py_eq_str_true in E4; auto 6 |].
  discriminate Hrun.
Qed.

Lemma add_risk_context_text (response_data : nat) (lat lon : Q) (t : PyVal) (w : World) :
  add_risk_context response_data lat lon t w
  = dict_setitem response_data "risk_context" (PStr (risk_context_text lat lon t)) w.
Proof.
  unfold add_risk_context, risk_context_text.
  repeat match goal with
         | |- context [if ?c then _ else _] => destruct c
         end; reflexivity.
Qed.

(** The part of the view under [try], when the pipeline returns. *)
Lemma compute_response_returned (key : string) (lat lon : Q) (d t : PyVal)
    (w w0 : World) (u1 u2 u3 : string) (dp : Q) :
  get_satellite_imagery lat lon d t w = (Return (u1, u2, u3, dp), w0) →
  compute_response key lat lon d t w
  = (Return (mkResponse
               (<["risk_context" := PStr (risk_context_text lat lon t)]>
                  (report_fields lat lon d t u1 u2 u3 dp)) 200),
     mkWorld
       (heap w ++ [<["risk_context" := PStr (risk_context_text lat lon t)]>
                     (report_fields lat lon d t u1 u2 u3 dp)])
       (<[key := <["risk_context" := PStr (risk_context_text lat lon t)]>
                   (report_fields lat lon d t u1 u2 u3 dp)]> (cache w))
       (stdout w0)).
Proof.
  intros Hrun.
  pose proof (get_satellite_imagery_heap_cache lat lon d t w) as [Hheap Hcache].
  rewrite Hrun in Hheap, Hcache. simpl in Hheap, Hcache.
  unfold compute_response, try_except, build_response_data.
  unfold mbind, M_bind. rewrite Hrun. unfold new_dict. rewrite Hheap, Hcache.
  rewrite add_risk_context_text, dict_setitem_last.
  unfold cache_set, jsonify, deref, mbind, M_bind, mret, M_ret. simpl.
  rewrite !list_lookup_middle by done. reflexivity.
Qed.

(** The same part, when the pipeline raises. *)
Lemma compute_response_raised (key : string) (lat lon : Q) (d t : PyVal)
    (w w0 : World) (e : exn) :
  get_satellite_imagery lat lon d t w = (Raised e, w0) →
  compute_response key lat lon d t w
  = (Return (analysis_error_response e),
     mkWorld (heap w) (cache w)
       (stdout w0 ++ ["Error in the GEE analysis: " +:+ exn_str e])).
Proof.
  intros Hrun.
  pose proof (get_satellite_imagery_heap_cache lat lon d t w) as [Hheap Hcache].
  rewrite Hrun in Hheap, Hcache. simpl in Hheap, Hcache.
  unfold compute_response, try_except, build_response_data.
  unfold mbind, M_bind. rewrite Hrun.
  unfold print, mret, M_ret. by rewrite Hheap, Hcache.
Qed.

End Outcomes.

(** X2.  The part of the view under [try] never lets an exception escape.
    Either the pipeline returned, and the answer has status 200, one
    dictionary (the answer's body) was added to the heap and the cache
    changed at the request's key only, where it now holds that body; or the
    pipeline raised, and the answer has status 500 with the exception's text,
    and heap and cache are as before: a failure is never cached. *)
Theorem compute_response_outcome `{EE : ee.EarthEngine} `{PT : PyFloatText}
    (key : string) (lat lon : Q) (d t : PyVal) (w : World) :
  ∃ (resp : Response) (w' : World),
    compute_response key lat lon d t w = (Return resp, w')
    ∧ ((status_code resp = 200%Z
        ∧ (∃ r, fst (get_satellite_imagery lat lon d t w) = Return r)
        ∧ heap w' = heap w ++ [body resp]
        ∧ cache w' !! key = Some (body resp)
        ∧ ∀ k, k ≠ key → cache w' !! k = cache w !! k)
       ∨ (status_code resp = 500%Z
          ∧ (∃ e, fst (get_satellite_imagery lat lon d t w) = Raised e
                  ∧ body resp
                    = {["error" := PStr ("Error in the analysis: " +:+ exn_str e)]})
          ∧ heap w' = heap w ∧ cache w' = cache w)).
Proof.
  destruct (get_satellite_imagery lat lon d t w)
    as [[[[[u1 u2] u3] dp] | e] w0] eqn:Hrun.
  - eexists _, _. split; [by apply compute_response_returned |].
    left. simpl. split; [done |]. split; [by eexists |]. split; [done |].
    split; [apply lookup_insert_eq | intros k Hk; by apply lookup_insert_ne].
  - eexists _, _. split; [by apply compute_response_raised |].
    right. simpl. split; [done |]. split; [by exists e |]. done.
Qed.

(** ** Status codes of the view *)

Lemma cache_hit_Some (c : option PyDict) (entry : PyDict) :
  c = Some entry → entry ≠ ∅ → cache_hit c = Some entry.
Proof.
  intros -> Hne. unfold cache_hit.
  destruct (size entry =? 0)%nat eqn:Hsize; [| done].
  apply Nat.eqb_eq, map_size_empty_iff in Hsize. done.
Qed.

Lemma py_all_false (lat lon : Q) (d t : PyVal) :
  py_all [PFloat lat; PFloat lon; d; t] = false
  ↔ (lat == 0)%Q ∨ (lon == 0)%Q ∨ truthy d = false ∨ truthy t = false.
Proof.
  unfold py_all. simpl. rewrite andb_true_r, !andb_false_iff, !negb_false_iff.
  rewrite !Qeqb0_eq. reflexivity.
Qed.

(** X5.  Once both coordinates are parsed the view always answers: no
    exception escapes, and the status is 200, 400 or 500.  The status is 400
    exactly when one of the four parsed values is falsy, that is when a
    coordinate is zero or the date or the type is absent, null, empty, zero or
    false; the answer is then the missing-parameter body and the world is
    unchanged. *)
Theorem endpoint_status `{EE : ee.EarthEngine} `{PT : PyFloatText}
    (data : PyDict) (w : World) (lat lon : Q) :
  fst (py_float (dict_get data "lat") w) = Return lat →
  fst (py_float (dict_get data "lon") w) = Return lon →
  ∃ (resp : Response) (w' : World),
    analyze_damage_endpoint data w = (Return resp, w')
    ∧ (status_code resp = 200 ∨ status_code resp = 400 ∨ status_code resp = 500)%Z
    ∧ (status_code resp = 400%Z
       ↔ (lat == 0)%Q ∨ (lon == 0)%Q
         ∨ truthy (dict_get data "disaster_date") = false
         ∨ truthy (dict_get data "disaster_type") = false)
    ∧ (status_code resp = 400%Z → resp = missing_params_response ∧ w' = w).
Proof.
  intros Hlat Hlon.
  rewrite (analyze_damage_endpoint_parsed data w lat lon) by done.
  pose proof (py_all_false lat lon (dict_get data "disaster_date")
                (dict_get data "disaster_type")) as Hfalsy.
  destruct (py_all _) eqn:Hall; simpl.
  - assert (Hnot : ¬ ((lat == 0)%Q ∨ (lon == 0)%Q
                      ∨ truthy (dict_get data "disaster_date") = false
                      ∨ truthy (dict_get data "disaster_type") = false)).
    { rewrite <- Hfalsy. discriminate. }
    destruct (cache_hit _) as [entry |].
    + eexists _, _. split; [done |]. simpl. split; [by left |].
      split; [split; [discriminate | done] | discriminate].
    + match goal with |- context [compute_response ?k lat lon ?d ?t ?w0] =>
        destruct (get_satellite_imagery lat lon d t w0)
          as [[[[[u1 u2] u3] dp] | e] w1] eqn:Hrun;
        [rewrite (compute_response_returned k lat lon d t w0 w1 u1 u2 u3 dp Hrun)
        | rewrite (compute_response_raised k lat lon d t w0 w1 e Hrun)]
      end;
        eexists _, _; (split; [done |]); simpl; (split; [auto |]);
        (split; [split; [discriminate | done] | discriminate]).
  - eexists _, _. split; [done |]. simpl. split; [auto |].
    split; [| done]. split; [intros _; by apply Hfalsy | done].
Qed.

Lemma endpoint_status_witness :
  ∃ (resp : Response) (w' : World),
    @analyze_damage_endpoint (Scenes.provider Scenes.flooded_catalogue) Scenes.text
      (Scenes.request 30 (-90) "") Scenes.fresh = (Return resp, w')
    ∧ (status_code resp = 200 ∨ status_code resp = 400 ∨ status_code resp = 500)%Z.
Proof.
  destruct (@endpoint_status (Scenes.provider Scenes.flooded_catalogue) Scenes.text
              (Scenes.request 30 (-90) "") Scenes.fresh 30 (-90))%Q
    as (resp & w' & Hrun & Hstatus & _).
  - vm_compute. reflexivity.
  - vm_compute. reflexivity.
  - exists resp, w'. split; [exact Hrun | exact Hstatus].
Defined.

(** ** The cache *)

(** X9.  The cache is consulted by key alone.  When the four parsed values
    are truthy and the cache holds a non-empty entry under the request's key,
    the view answers with that entry and status 200, prints the cache notice
    and touches neither heap nor cache; the pipeline is not run, whatever the
    provider.  The key is the text of the four values joined by underscores,
    so an integer date and its decimal text give the same key. *)
Theorem cached_entry_returned `{EE : ee.EarthEngine} `{PT : PyFloatText}
    (data : PyDict) (w : World) (lat lon : Q) (entry : PyDict) :
  let disaster_date := dict_get data "disaster_date" in
  let disaster_type := dict_get data "disaster_type" in
  fst (py_float (dict_get data "lat") w) = Return lat →
  fst (py_float (dict_get data "lon") w) = Return lon →
  py_all [PFloat lat; PFloat lon; disaster_date; disaster_type] = true →
  cache w !! cache_key_of lat lon disaster_date disaster_type = Some entry →
  entry ≠ ∅ →
  analyze_damage_endpoint data w
  = (Return (mkResponse entry 200),
     mkWorld (heap w) (cache w) (stdout w ++ ["Response returned from CACHE!"]))
  ∧ ∀ (z : Z) (t : PyVal),
      cache_key_of lat lon (PInt z) t = cache_key_of lat lon (PStr (str_of_Z z)) t.
Proof.
  intros disaster_date disaster_type Hlat Hlon Hall Hentry Hne.
  split; [| done].
  rewrite (analyze_damage_endpoint_parsed data w lat lon) by done.
  fold disaster_date disaster_type. rewrite Hall. simpl.
  by rewrite (cache_hit_Some _ entry).
Qed.

Lemma cached_entry_returned_witness :
  fst (@analyze_damage_endpoint (Scenes.provider []) Scenes.text
         (Scenes.text_date_request 30 (-90) "flood") (snd Scenes.first_answer))
  = Return (mkResponse (body (Scenes.answer_of (fst Scenes.first_answer))) 200).
Proof.
  refine (f_equal fst (proj1
    (@cached_entry_returned (Scenes.provider []) Scenes.text
       (Scenes.text_date_request 30 (-90) "flood") (snd Scenes.first_answer)
       30 (-90) (body (Scenes.answer_of (fst Scenes.first_answer))) _ _ _ _ _)))%Q.
  - vm_compute. reflexivity.
  - vm_compute. reflexivity.
  - vm_compute. reflexivity.
  - vm_compute. reflexivity.
  - intros Hempty.
    assert (Hlook : body (Scenes.answer_of (fst Scenes.first_answer)) !! "status"
                    = Some (PStr "FLAGGED FOR REVIEW (Considerable Damage)"))
      by (vm_compute; reflexivity).
    rewrite Hempty in Hlook. discriminate Hlook.
Defined.

(** X1.  An answer with status 200 is repeatable: the same request sent
    again to the world the first answer left behind gets the same answer, this
    time from the cache.  The second call prints the cache notice and changes
    neither heap nor cache, and it does not depend on the provider, so it holds
    even if the imagery has changed or gone in the meantime. *)
Theorem repeated_request_served_from_cache
    (EE EE' : ee.EarthEngine) `{PT : PyFloatText}
    (data : PyDict) (w : World) (lat lon : Q) (resp : Response) :
  fst (py_float (dict_get data "lat") w) = Return lat →
  fst (py_float (dict_get data "lon") w) = Return lon →
  fst (@analyze_damage_endpoint EE PT data w) = Return resp →
  status_code resp = 200%Z →
  @analyze_damage_endpoint EE' PT data (snd (@analyze_damage_endpoint EE PT data w))
  = (Return resp,
     mkWorld (heap (snd (@analyze_damage_endpoint EE PT data w)))
       (cache (snd (@analyze_damage_endpoint EE PT data w)))
       (stdout (snd (@analyze_damage_endpoint EE PT data w))
        ++ ["Response returned from CACHE!"])).
Proof.
  intros Hlat Hlon Hrun Hstatus.
  set (d := dict_get data "disaster_date") in *.
  set (t := dict_get data "disaster_type") in *.
  set (key := cache_key_of lat lon d t).
  assert (Hagain : ∀ w1 (entry : PyDict),
    cache w1 !! key = Some entry → entry ≠ ∅ →
    py_all [PFloat lat; PFloat lon; d; t] = true →
    @analyze_damage_endpoint EE' PT data w1
    = (Return (mkResponse entry 200),
       mkWorld (heap w1) (cache w1) (stdout w1 ++ ["Response returned from CACHE!"]))).
  { intros w1 entry Hentry Hne Hall.
    rewrite (@analyze_damage_endpoint_parsed EE' PT data w1 lat lon);
      [| by rewrite (py_float_any_world _ w1 w) | by rewrite (py_float_any_world _ w1 w)].
    fold d t key. rewrite Hall. simpl. by rewrite (cache_hit_Some _ entry). }
  rewrite (@analyze_damage_endpoint_parsed EE PT data w lat lon) in Hrun |- * by done.
  fold d t key in Hrun |- *.
  destruct (py_all [PFloat lat; PFloat lon; d; t]) eqn:Hall; simpl in Hrun |- *.
  2:{ injection Hrun as <-. discriminate Hstatus. }
  destruct (cache_hit (cache w !! key)) as [entry |] eqn:Hhit.
  - simpl in Hrun. injection Hrun as <-. simpl.
    unfold cache_hit in Hhit.
    destruct (cache w !! key) as [stored |] eqn:Hstored; [| done].
    destruct (size stored =? 0)%nat eqn:Hsize; [done |].
    injection Hhit as ->.
    apply Hagain; [done | | done].
    apply Nat.eqb_neq in Hsize. by apply map_size_non_empty_iff.
  - match type of Hrun with context [compute_response key lat lon d t ?w0] =>
      destruct (@get_satellite_imagery EE PT lat lon d t w0)
        as [[[[[u1 u2] u3] dp] | e] w1] eqn:Hpipe;
      [rewrite (@compute_response_returned EE PT key lat lon d t w0 w1 u1 u2 u3 dp Hpipe)
         in Hrun |- *
      | rewrite (@compute_response_raised EE PT key lat lon d t w0 w1 e Hpipe) in Hrun]
    end.
    + simpl in Hrun. injection Hrun as <-. simpl.
      apply (Hagain (mkWorld _ _ _)); [apply lookup_insert_eq | apply insert_non_empty | done].
    + simpl in Hrun. injection Hrun as <-. discriminate Hstatus.
Qed.

Lemma repeated_request_served_from_cache_witness :
  fst (@analyze_damage_endpoint (Scenes.provider []) Scenes.text
         (Scenes.request 30 (-90) "flood") (snd Scenes.first_answer))
  = Return (Scenes.answer_of (fst Scenes.first_answer)).
Proof.
  unfold Scenes.first_answer.
  rewrite (@repeated_request_served_from_cache
             (Scenes.provider Scenes.half_flooded_catalogue) (Scenes.provider [])
             Scenes.text (Scenes.request 30 (-90) "flood") Scenes.fresh
             30 (-90)
             (Scenes.answer_of
                (fst (@analyze_damage_endpoint
                        (Scenes.provider Scenes.half_flooded_catalogue) Scenes.text
                        (Scenes.request 30 (-90) "flood") Scenes.fresh))))%Q.
  - reflexivity.
  - vm_compute. reflexivity.
  - vm_compute. reflexivity.
  - vm_compute. reflexivity.
  - vm_compute. reflexivity.
Defined.

(** ** Coordinates that cannot be parsed *)

(** X4.  The coordinates are converted with [float] before the presence
    check and outside the [try].  A request whose [lat] is absent or null
    makes [float] raise a [TypeError], and a [lat] given as text that [float]
    cannot parse makes it raise a [ValueError]; the same holds for [lon] once
    [lat] is parsed.  The exception escapes the view: no response is built,
    and nothing is printed, cached or allocated. *)
Theorem unparsed_coordinate_escapes `{EE : ee.EarthEngine} `{PT : PyFloatText}
    (data : PyDict) (w : World) :
  (dict_get data "lat" = PNone →
   ∃ msg, analyze_damage_endpoint data w = (Raised (TypeError msg), w))
  ∧ (∀ s, dict_get data "lat" = PStr s → float_parse s = None →
     ∃ msg, analyze_damage_endpoint data w = (Raised (ValueError msg), w))
  ∧ (∀ lat, fst (py_float (dict_get data "lat") w) = Return lat →
     dict_get data "lon" = PNone →
     ∃ msg, analyze_damage_endpoint data w = (Raised (TypeError msg), w))
  ∧ (∀ lat s, fst (py_float (dict_get data "lat") w) = Return lat →
     dict_get data "lon" = PStr s → float_parse s = None →
     ∃ msg, analyze_damage_endpoint data w = (Raised (ValueError msg), w)).
Proof.
  assert (Hlon : ∀ lat, fst (py_float (dict_get data "lat") w) = Return lat →
    ∀ e, py_float (dict_get data "lon") w = (Raised e, w) →
    analyze_damage_endpoint data w = (Raised e, w)).
  { intros lat Hlat e He. unfold analyze_damage_endpoint.
    unfold mbind at 1. unfold M_bind at 1.
    pose proof (py_float_world (dict_get data "lat") w) as Hw.
    destruct (py_float (dict_get data "lat") w) as [o w1].
    simpl in Hlat, Hw. subst o w1.
    unfold mbind at 1. unfold M_bind at 1. by rewrite He. }
  split; [| split; [| split]].
  - intros Hnone. eexists. unfold analyze_damage_endpoint.
    unfold mbind at 1. unfold M_bind at 1. rewrite Hnone. reflexivity.
  - intros s Hs Hparse. eexists. unfold analyze_damage_endpoint.
    unfold mbind at 1. unfold M_bind at 1. rewrite Hs. simpl. rewrite Hparse.
    reflexivity.
  - intros lat Hlat Hnone. eexists. apply (Hlon lat Hlat). by rewrite Hnone.
  - intros lat s Hlat Hs Hparse. eexists. apply (Hlon lat Hlat).
    rewrite Hs. simpl. by rewrite Hparse.
Qed.

Lemma unparsed_coordinate_escapes_witness :
  ∃ msg,
    @analyze_damage_endpoint (Scenes.provider Scenes.flooded_catalogue) Scenes.text
      (delete "lat" (Scenes.request 30 (-90) "flood")) Scenes.fresh
    = (Raised (TypeError msg), Scenes.fresh).
Proof.
  apply (proj1 (@unparsed_coordinate_escapes
                  (Scenes.provider Scenes.flooded_catalogue) Scenes.text
                  (delete "lat" (Scenes.request 30 (-90) "flood")) Scenes.fresh)).
  vm_compute. reflexivity.
Defined.

(** ** A region without area *)

(** X3.  The division by the area of the region is not guarded.  For a
    supported type, once a pair of images is selected, a defined sum reduction
    over a region of area zero makes [get_satellite_imagery] raise a
    [ZeroDivisionError]; the view turns it into an answer of status 500 that
    carries the exception's text. *)
Theorem zero_area_division_error `{EE : ee.EarthEngine} `{PT : PyFloatText}
    (lat lon : Q) (d t : PyVal) (w : World) (m : Q) :
  let aoi := area_of_interest lat lon in
  let image_before := ee.clip (image_before_obj aoi d) aoi in
  let image_after := ee.clip (image_after_obj aoi d) aoi in
  collection_before aoi d ≠ [] → collection_after aoi d ≠ [] →
  masked_meters t image_before image_after aoi = Some m →
  (ee.area aoi == 0)%Q →
  ∃ msg,
    fst (get_satellite_imagery lat lon d t w) = Raised (ZeroDivisionError msg)
    ∧ ∀ key,
        fst (compute_response key lat lon d t w)
        = Return (mkResponse {["error" := PStr ("Error in the analysis: " +:+ msg)]} 500).
Proof.
  intros aoi image_before image_after Hb Ha Hm Hzero.
  apply Qeqb0_eq in Hzero.
  assert (Hrun : ∃ w0, get_satellite_imagery lat lon d t w
                       = (Raised division_by_zero, w0)).
  { rewrite get_satellite_imagery_selected by done.
    fold aoi image_before image_after.
    unfold masked_meters in Hm. unfold analysis_by_type.
    repeat (destruct (py_eq_str t _); [
      unfold mbind, M_bind, print;
      rewrite ?analyze_fire_damage_run, ?analyze_flood_damage_run,
        ?analyze_landslide_damage_run, Hm, Hzero; by eexists |]).
    discriminate Hm. }
  destruct Hrun as [w0 Hrun]. exists "float division by zero".
  split; [by rewrite Hrun |].
  intros key. by rewrite (compute_response_raised key lat lon d t w w0 _ Hrun).
Qed.

Lemma zero_area_division_error_witness :
  ∃ msg,
    fst (@get_satellite_imagery (Scenes.flattened Scenes.flooded_catalogue) Scenes.text
           30 (-90) Scenes.date (PStr "flood") Scenes.fresh)
    = Raised (ZeroDivisionError msg).
Proof.
  destruct (@zero_area_division_error
              (Scenes.flattened Scenes.flooded_catalogue) Scenes.text
              30 (-90) Scenes.date (PStr "flood") Scenes.fresh 3141000)%Q
    as (msg & Hrun & _).
  - vm_compute. discriminate.
  - vm_compute. discriminate.
  - vm_compute. reflexivity.
  - reflexivity.
  - exists msg. exact Hrun.
Defined.

(** ** Answers of status 200 *)

Section Answers.

Context `{EE : ee.EarthEngine} `{PT : PyFloatText}.

(** A computed answer of status 200 is the annotated report of a returning
    pipeline. *)
Lemma compute_response_ok (key : string) (lat lon : Q) (d t : PyVal)
    (w w' : World) (resp : Response) :
  compute_response key lat lon d t w = (Return resp, w') →
  status_code resp = 200%Z →
  ∃ u1 u2 u3 dp,
    fst (get_satellite_imagery lat lon d t w) = Return (u1, u2, u3, dp)
    ∧ body resp = <["risk_context" := PStr (risk_context_text lat lon t)]>
                    (report_fields lat lon d t u1 u2 u3 dp).
Proof.
  intros Hview Hstatus.
  destruct (get_satellite_imagery lat lon d t w)
    as [[[[[u1 u2] u3] dp] | e] w0] eqn:Hrun.
  - rewrite (compute_response_returned key lat lon d t w w0 u1 u2 u3 dp Hrun) in Hview.
    injection Hview as <- _. by exists u1, u2, u3, dp.
  - rewrite (compute_response_raised key lat lon d t w w0 e Hrun) in Hview.
    injection Hview as <- _. discriminate Hstatus.
Qed.

Lemma in_box (lo hi lo' hi' x y : Q) :
  (Qltb lo x && Qltb x hi) && (Qltb lo' y && Qltb y hi') = true
  ↔ (lo < x)%Q ∧ (x < hi)%Q ∧ (lo' < y)%Q ∧ (y < hi')%Q.
Proof. rewrite !andb_true_iff, !Qltb_lt. tauto. Qed.

(** A null reduction makes the pipeline raise, for every supported type. *)
Lemma get_satellite_imagery_null_reduction (lat lon : Q) (d t : PyVal) (w : World) :
  let aoi := area_of_interest lat lon in
  let image_before := ee.clip (image_before_obj aoi d) aoi in
  let image_after := ee.clip (image_after_obj aoi d) aoi in
  In t [PStr "fire"; PStr "flood"; PStr "hurricane"; PStr "earthquake"] →
  collection_before aoi d ≠ [] → collection_after aoi d ≠ [] →
  masked_meters t image_before image_after aoi = None →
  ∃ w', get_satellite_imagery lat lon d t w = (Raised none_operand, w').
Proof.
  intros aoi image_before image_after Ht Hb Ha Hnone.
  rewrite get_satellite_imagery_selected by done.
  fold aoi image_before image_after.
  destruct (analysis_by_type_null t image_before image_after aoi w Ht Hnone)
    as (w' & -> & _). by exists w'.
Qed.

(** A reduction equal to zero gives the percentage zero. *)
Lemma get_satellite_imagery_zero_reduction (lat lon : Q) (d t : PyVal) (w : World)
    (m : Q) :
  let aoi := area_of_interest lat lon in
  let image_before := ee.clip (image_before_obj aoi d) aoi in
  let image_after := ee.clip (image_after_obj aoi d) aoi in
  collection_before aoi d ≠ [] → collection_after aoi d ≠ [] →
  masked_meters t image_before image_after aoi = Some m →
  (m == 0)%Q → ¬ (ee.area aoi == 0)%Q →
  ∃ u1 u2 u3 w', get_satellite_imagery lat lon d t w = (Return (u1, u2, u3, 0%Q), w').
Proof.
  intros aoi image_before image_after Hb Ha Hm Hzero Harea.
  apply Qeqb0_neq in Harea.
  rewrite get_satellite_imagery_selected by done.
  fold aoi image_before image_after.
  unfold masked_meters in Hm. unfold analysis_by_type.
  repeat (destruct (py_eq_str t _); [
    unfold mbind, M_bind, print;
    rewrite ?analyze_fire_damage_run, ?analyze_flood_damage_run,
      ?analyze_landslide_damage_run, Hm, Harea, (area_percent_zero m _ Hzero);
    by eauto |]).
  discriminate Hm.
Qed.

End Answers.

(** X6.  In a computed answer of status 200 the risk context follows the
    type and the coordinates.  For flood and hurricane it is the flood alert
    exactly when 29 < lat < 31 and -91 < lon < -89 (bounds excluded), and the
    outside-flood-zones text otherwise; for earthquake it is the seismic alert
    exactly when 33 < lat < 35 and -119 < lon < -117, and the
    outside-seismic-zones text otherwise; for fire it is the wildfire text,
    wherever the point lies. *)
Theorem risk_context_zones `{EE : ee.EarthEngine} `{PT : PyFloatText}
    (key : string) (lat lon : Q) (d t : PyVal) (w w' : World) (resp : Response) :
  compute_response key lat lon d t w = (Return resp, w') →
  status_code resp = 200%Z →
  (t = PStr "flood" ∨ t = PStr "hurricane" →
   ((29 < lat)%Q ∧ (lat < 31)%Q ∧ (-91 < lon)%Q ∧ (lon < -89)%Q →
    body resp !! "risk_context" = Some (PStr flood_alert))
   ∧ (¬ ((29 < lat)%Q ∧ (lat < 31)%Q ∧ (-91 < lon)%Q ∧ (lon < -89)%Q) →
      body resp !! "risk_context"
      = Some (PStr "Property is outside of known high-risk flood zones.")))
  ∧ (t = PStr "earthquake" →
     ((33 < lat)%Q ∧ (lat < 35)%Q ∧ (-119 < lon)%Q ∧ (lon < -117)%Q →
      body resp !! "risk_context" = Some (PStr seismic_alert))
     ∧ (¬ ((33 < lat)%Q ∧ (lat < 35)%Q ∧ (-119 < lon)%Q ∧ (lon < -117)%Q) →
        body resp !! "risk_context"
        = Some (PStr "Property is outside of known high-risk seismic zones.")))
  ∧ (t = PStr "fire" →
     body resp !! "risk_context"
     = Some (PStr "Wildfire risk context for this area is under analysis.")).
Proof.
  intros Hview Hstatus.
  destruct (compute_response_ok key lat lon d t w w' resp Hview Hstatus)
    as (u1 & u2 & u3 & dp & _ & ->).
  rewrite lookup_insert_eq.
  split; [| split].
  - intros Ht.
    assert (Htext : risk_context_text lat lon t
                    = if (Qltb 29 lat && Qltb lat 31) && (Qltb (-91) lon && Qltb lon (-89))
                      then flood_alert
                      else "Property is outside of known high-risk flood zones.").
    { destruct Ht as [-> | ->]; reflexivity. }
    rewrite Htext. pose proof (in_box 29 31 (-91) (-89) lat lon) as Hbox.
    destruct (_ && _); split; intros Hin; try done.
    + exfalso. apply Hin. by apply Hbox.
    + apply Hbox in Hin. discriminate Hin.
  - intros ->.
    assert (Htext : risk_context_text lat lon (PStr "earthquake")
                    = if (Qltb 33 lat && Qltb lat 35) && (Qltb (-119) lon && Qltb lon (-117))
                      then seismic_alert
                      else "Property is outside of known high-risk seismic zones.")
      by reflexivity.
    rewrite Htext. pose proof (in_box 33 35 (-119) (-117) lat lon) as Hbox.
    destruct (_ && _); split; intros Hin; try done.
    + exfalso. apply Hin. by apply Hbox.
    + apply Hbox in Hin. discriminate Hin.
  - intros ->. reflexivity.
Qed.

Lemma risk_context_zones_witness :
  body (Scenes.answer_of (fst Scenes.first_answer)) !! "risk_context"
  = Some (PStr flood_alert).
Proof.
  refine (proj1 (proj1
    (@risk_context_zones (Scenes.provider Scenes.half_flooded_catalogue) Scenes.text
       (@cache_key_of Scenes.text 30 (-90) Scenes.date (PStr "flood"))
       30 (-90) Scenes.date (PStr "flood")
       (mkWorld [] ∅ ["CALCULATED response (not from cache)!"])
       (snd Scenes.first_answer) (Scenes.answer_of (fst Scenes.first_answer)) _ _)
    (or_introl eq_refl)) _)%Q.
  - vm_compute. reflexivity.
  - vm_compute. reflexivity.
  - repeat split.
Defined.

(** X7.  A computed answer of status 200 was asked for one of the four
    supported types, so the last branch of the risk annotation is never
    taken: the risk context of such an answer is never the not-applicable
    text. *)
Theorem risk_context_always_applicable `{EE : ee.EarthEngine} `{PT : PyFloatText}
    (key : string) (lat lon : Q) (d t : PyVal) (w w' : World) (resp : Response) :
  compute_response key lat lon d t w = (Return resp, w') →
  status_code resp = 200%Z →
  In t [PStr "fire"; PStr "flood"; PStr "hurricane"; PStr "earthquake"]
  ∧ body resp !! "risk_context"
    ≠ Some (PStr "Risk context analysis not applicable for this type of disaster.").
Proof.
  intros Hview Hstatus.
  destruct (compute_response_ok key lat lon d t w w' resp Hview Hstatus)
    as (u1 & u2 & u3 & dp & Hrun & ->).
  assert (Ht : In t [PStr "fire"; PStr "flood"; PStr "hurricane"; PStr "earthquake"]).
  { destruct (get_satellite_imagery lat lon d t w) as [o w0] eqn:Hpipe.
    simpl in Hrun. subst o. by eapply get_satellite_imagery_supported. }
  split; [done |]. rewrite lookup_insert_eq.
  simpl in Ht. destruct Ht as [<- | [<- | [<- | [<- | []]]]];
    unfold risk_context_text; simpl;
    repeat match goal with |- context [if ?c then _ else _] => destruct c end;
    discriminate.
Qed.

Lemma risk_context_always_applicable_witness :
  In (PStr "flood") [PStr "fire"; PStr "flood"; PStr "hurricane"; PStr "earthquake"]
  ∧ body (Scenes.answer_of (fst Scenes.first_answer)) !! "risk_context"
    ≠ Some (PStr "Risk context analysis not applicable for this type of disaster.").
Proof.
  refine (@risk_context_always_applicable
            (Scenes.provider Scenes.half_flooded_catalogue) Scenes.text
            (@cache_key_of Scenes.text 30 (-90) Scenes.date (PStr "flood"))
            30 (-90) Scenes.date (PStr "flood")
            (mkWorld [] ∅ ["CALCULATED response (not from cache)!"])
            (snd Scenes.first_answer) (Scenes.answer_of (fst Scenes.first_answer)) _ _)%Q.
  - vm_compute. reflexivity.
  - vm_compute. reflexivity.
Defined.

(** X8.  A computed answer of status 200 has exactly nine keys.  It carries
    the three URLs and the percentage that the pipeline returned, echoes the
    date and the type of the request as they were sent, and names the
    coordinates in [location_processed]. *)
Theorem answer_fields `{EE : ee.EarthEngine} `{PT : PyFloatText}
    (key : string) (lat lon : Q) (d t : PyVal) (w w' : World) (resp : Response) :
  compute_response key lat lon d t w = (Return resp, w') →
  status_code resp = 200%Z →
  ∃ u1 u2 u3 dp,
    fst (get_satellite_imagery lat lon d t w) = Return (u1, u2, u3, dp)
    ∧ dom (body resp)
      = ({["status"; "damage_percent"; "image_url_before"; "image_url_after";
           "image_url_damage_map"; "location_processed"; "date_processed";
           "type_processed"; "risk_context"]} : gset string)
    ∧ body resp !! "damage_percent" = Some (PFloat dp)
    ∧ body resp !! "image_url_before" = Some (PStr u1)
    ∧ body resp !! "image_url_after" = Some (PStr u2)
    ∧ body resp !! "image_url_damage_map" = Some (PStr u3)
    ∧ body resp !! "date_processed" = Some d
    ∧ body resp !! "type_processed" = Some t
    ∧ body resp !! "location_processed"
      = Some (PStr ("Lat: " +:+ float_repr lat +:+ ", Lon: " +:+ float_repr lon)).
Proof.
  intros Hview Hstatus.
  destruct (compute_response_ok key lat lon d t w w' resp Hview Hstatus)
    as (u1 & u2 & u3 & dp & Hrun & ->).
  exists u1, u2, u3, dp. split; [done |]. split.
  - unfold report_fields. rewrite !dom_insert_L, dom_empty_L. set_solver.
  - unfold report_fields. repeat split; by simplify_map_eq.
Qed.

Lemma answer_fields_witness :
  body (Scenes.answer_of (fst Scenes.first_answer)) !! "type_processed"
  = Some (PStr "flood").
Proof.
  destruct (@answer_fields (Scenes.provider Scenes.half_flooded_catalogue) Scenes.text
              (@cache_key_of Scenes.text 30 (-90) Scenes.date (PStr "flood"))
              30 (-90) Scenes.date (PStr "flood")
              (mkWorld [] ∅ ["CALCULATED response (not from cache)!"])
              (snd Scenes.first_answer) (Scenes.answer_of (fst Scenes.first_answer)))%Q
    as (u1 & u2 & u3 & dp & _ & _ & _ & _ & _ & _ & _ & Htype & _).
  - vm_compute. reflexivity.
  - vm_compute. reflexivity.
  - exact Htype.
Defined.

(** X10.  What an empty mask gives depends on what the provider reports for
    it.  For a supported type, once a pair of images is selected: when the sum
    reduction is null the [is None] test does not fire, the pipeline raises a
    [TypeError], and the view answers with status 500 and the exception's
    text, leaving heap and cache as they were; when the sum reduction is the
    number zero over a region of non-zero area, the view answers with status
    200, percentage 0 and the no-significant-damage label. *)
Theorem empty_mask_answer `{EE : ee.EarthEngine} `{PT : PyFloatText}
    (key : string) (lat lon : Q) (d t : PyVal) (w : World) :
  let aoi := area_of_interest lat lon in
  let image_before := ee.clip (image_before_obj aoi d) aoi in
  let image_after := ee.clip (image_after_obj aoi d) aoi in
  collection_before aoi d ≠ [] → collection_after aoi d ≠ [] →
  (In t [PStr "fire"; PStr "flood"; PStr "hurricane"; PStr "earthquake"] →
   masked_meters t image_before image_after aoi = None →
   ∃ (msg : string) (w' : World),
     fst (get_satellite_imagery lat lon d t w) = Raised (TypeError msg)
     ∧ compute_response key lat lon d t w
       = (Return (mkResponse {["error" := PStr ("Error in the analysis: " +:+ msg)]} 500),
          w')
     ∧ heap w' = heap w ∧ cache w' = cache w)
  ∧ (∀ m, masked_meters t image_before image_after aoi = Some m →
     (m == 0)%Q → ¬ (ee.area aoi == 0)%Q →
     ∃ (resp : Response) (w' : World),
       compute_response key lat lon d t w = (Return resp, w')
       ∧ status_code resp = 200%Z
       ∧ body resp !! "damage_percent" = Some (PFloat 0)
       ∧ body resp !! "status" = Some (PStr "No Significant Damage Detected")).
Proof.
  intros aoi image_before image_after Hb Ha. split.
  - intros Ht Hnone.
    destruct (get_satellite_imagery_null_reduction lat lon d t w Ht Hb Ha Hnone)
      as (w0 & Hrun).
    eexists _, _. split; [by rewrite Hrun |].
    split; [exact (compute_response_raised key lat lon d t w w0 _ Hrun) |]. done.
  - intros m Hm Hzero Harea.
    destruct (get_satellite_imagery_zero_reduction lat lon d t w m Hb Ha Hm Hzero Harea)
      as (u1 & u2 & u3 & w0 & Hrun).
    eexists _, _.
    split; [exact (compute_response_returned key lat lon d t w w0 u1 u2 u3 0 Hrun) |].
    simpl. split; [done |]. unfold report_fields. split; by simplify_map_eq.
Qed.

Lemma empty_mask_answer_witness :
  ∃ (msg : string) (w' : World),
    fst (@get_satellite_imagery (Scenes.provider Scenes.quiet_catalogue) Scenes.text
           30 (-90) Scenes.date (PStr "earthquake") Scenes.fresh)
    = Raised (TypeError msg)
    ∧ @compute_response (Scenes.provider Scenes.quiet_catalogue) Scenes.text
        "k" 30 (-90) Scenes.date (PStr "earthquake") Scenes.fresh
      = (Return (mkResponse {["error" := PStr ("Error in the analysis: " +:+ msg)]} 500),
         w').
Proof.
  destruct (proj1 (@empty_mask_answer (Scenes.provider Scenes.quiet_catalogue) Scenes.text
                     "k" 30 (-90) Scenes.date (PStr "earthquake") Scenes.fresh
                     ltac:(vm_compute; discriminate) ltac:(vm_compute; discriminate)))%Q
    as (msg & w' & Hrun & Hview & _).
  - simpl. auto 6.
  - vm_compute. reflexivity.
  - exists msg, w'. split; [exact Hrun | exact Hview].
Defined.

(** X13.  The two preview URLs depend on the place and the date only: two
    returning calls of [get_satellite_imagery] for the same coordinates and
    date, whatever their disaster types and the worlds they start from, give
    the same before URL and the same after URL. *)
Theorem previews_independent_of_type `{EE : ee.EarthEngine} `{PT : PyFloatText}
    (lat lon : Q) (d t t' : PyVal) (w w0 w' w0' : World)
    (u1 u2 u3 u1' u2' u3' : string) (dp dp' : Q) :
  get_satellite_imagery lat lon d t w = (Return (u1, u2, u3, dp), w0) →
  get_satellite_imagery lat lon d t' w' = (Return (u1', u2', u3', dp'), w0') →
  u1 = u1' ∧ u2 = u2'.
Proof.
  intros Hrun Hrun'.
  pose proof (get_satellite_imagery_return _ _ _ _ _ _ _ _ _ _ Hrun) as (Hb & Ha & _).
  rewrite get_satellite_imagery_selected in Hrun, Hrun' by done.
  destruct (analysis_by_type t _ _ _ w) as [[[[p i] v] | e] w1]; [| done].
  destruct (analysis_by_type t' _ _ _ w') as [[[[p' i'] v'] | e'] w1']; [| done].
  by simplify_eq.
Qed.

Lemma previews_independent_of_type_witness :
  ("thumb:B3" = "thumb:B3" ∧ "thumb:B3" = "thumb:B3")%string.
Proof.
  refine (@previews_independent_of_type
            (Scenes.provider Scenes.flooded_catalogue) Scenes.text
            30 (-90) Scenes.date (PStr "flood") (PStr "fire") Scenes.fresh
            (mkWorld [] ∅ ["Processing 'flood' event."]) Scenes.fresh
            (mkWorld [] ∅ ["Processing 'fire' event."])
            "thumb:B3" "thumb:B3" "thumb:NDWI_After" "thumb:B3" "thumb:B3" "thumb:dNDVI"
            (binary64 (10001 # 100)) (binary64 (10001 # 100)) _ _)%Q.
  - vm_compute. reflexivity.
  - vm_compute. reflexivity.
Defined.

(** ** The raster behind the damage map *)

(** X14.  The raster rendered as the damage map is the vegetation
    difference for fire and for earthquake alike: on the same pair of images
    the two dispatches return the same raster.  For flood and hurricane it is
    the water index of the after image alone: replacing the before image
    changes neither the raster nor its visualisation parameters. *)
Theorem damage_map_raster `{EE : ee.EarthEngine} `{PT : PyFloatText}
    (b b' a : ee.Image) (aoi : ee.Geometry) :
  (∀ w w0 w' w0' p p' img img' vis vis',
     analysis_by_type (PStr "fire") b a aoi w = (Return (p, img, vis), w0) →
     analysis_by_type (PStr "earthquake") b a aoi w' = (Return (p', img', vis'), w0') →
     img = img' ∧ img = dNDVI b a)
  ∧ (∀ t w w0 w' w0' p p' img img' vis vis',
       t = PStr "flood" ∨ t = PStr "hurricane" →
       analysis_by_type t b a aoi w = (Return (p, img, vis), w0) →
       analysis_by_type t b' a aoi w' = (Return (p', img', vis'), w0') →
       img = img' ∧ vis = vis' ∧ img = NDWI_After a).
Proof.
  split.
  - intros w w0 w' w0' p p' img img' vis vis'.
    unfold analysis_by_type. simpl. unfold mbind, M_bind, print.
    rewrite analyze_fire_damage_run, analyze_landslide_damage_run.
    destruct (burned_meters b a aoi), (slide_meters b a aoi);
      try (destruct (Qeqb0 (ee.area aoi)); [discriminate |]);
      intros [= _ <- _ _] [= _ <- _ _]; done.
  - intros t w w0 w' w0' p p' img img' vis vis' Ht.
    unfold analysis_by_type.
    destruct Ht as [-> | ->]; simpl; unfold mbind, M_bind, print;
      rewrite !analyze_flood_damage_run;
      destruct (flooded_meters b a aoi), (flooded_meters b' a aoi);
      try (destruct (Qeqb0 (ee.area aoi)); [discriminate |]);
      intros [= _ <- <- _] [= _ <- <- _]; done.
Qed.

Lemma damage_map_raster_witness :
  @NDWI_After (Scenes.provider Scenes.flooded_catalogue)
    (Scenes.water (Scenes.event + 5 * Scenes.day_ms) 4 1)
  = @NDWI_After (Scenes.provider Scenes.flooded_catalogue)
      (Scenes.water (Scenes.event + 5 * Scenes.day_ms) 4 1).
Proof.
  refine (proj1 (proj2
    (@damage_map_raster (Scenes.provider Scenes.flooded_catalogue) Scenes.text
       (Scenes.land (Scenes.event - 10 * Scenes.day_ms) 3 1)
       (Scenes.land (Scenes.event - 20 * Scenes.day_ms) 5 (1 # 2))
       (Scenes.water (Scenes.event + 5 * Scenes.day_ms) 4 1) Scenes.aoi)
    (PStr "flood") Scenes.fresh (mkWorld [] ∅ ["Processing 'flood' event."])
    Scenes.fresh (mkWorld [] ∅ ["Processing 'flood' event."])
    (binary64 (10001 # 100)) (binary64 (5001 # 100))
    (@NDWI_After (Scenes.provider Scenes.flooded_catalogue)
       (Scenes.water (Scenes.event + 5 * Scenes.day_ms) 4 1))
    (@NDWI_After (Scenes.provider Scenes.flooded_catalogue)
       (Scenes.water (Scenes.event + 5 * Scenes.day_ms) 4 1))
    flood_palette flood_palette (or_introl eq_refl) _ _))%Q.
  - vm_compute. reflexivity.
  - vm_compute. reflexivity.
Defined.
